(** * Five-card poker hand classification

    A shallow embedding of [js/evaluatePokerHand.js] and the properties of
    its validator, aggregator, detectors and classifier.

    JavaScript numbers that the program handles are small integers: ranks
    are modelled in [Z], occurrence counts and array lengths in [nat].
    The two plain objects used as dictionaries ([rankCounts], [suitCounts])
    are finite maps; the program only ever reads them through
    [Object.keys]/[Object.values] followed by order-insensitive operations
    ([includes], [filter(...).length], [Math.max], [sort]). *)

From Stdlib Require Import ZArith Lia.
From stdpp Require Import base numbers list strings sorting gmap fin_maps.

Local Open Scope string_scope.
Local Open Scope list_scope.
Local Open Scope nat_scope.

(** ** Data model *)

(** [@typedef Card]: a suit string and a numeric rank. *)
Record Card : Type := { rank : Z; suit : string }.

(** A call either returns a value or throws [new Error(message)]. *)
Inductive outcome (A : Type) : Type :=
| Return (value : A)
| Throw (message : string).
Arguments Return {A} value.
Arguments Throw {A} message.

(** ** Constants *)

Definition TOTAL_CARDS : nat := 5.
Definition MAX_RANK_DIFF : Z := 4.
Definition ROYAL_TAIL_LENGTH : nat := 4.
Definition ACE_RANK : Z := 1.
Definition BROADWAY_START : Z := 10.
(** [[...Array(13).keys()].map(i => i + 1)] *)
Definition VALID_RANKS : list Z := (λ i, i + 1)%Z <$> seqZ 0 13.
Definition VALID_SUITS : list string := ["club"; "spade"; "diamond"; "heart"].
Definition FOUR_OF_A_KIND_COUNT : nat := 4.
Definition THREE_OF_A_KIND_COUNT : nat := 3.
Definition PAIR_COUNT : nat := 2.
Definition TWO_PAIR_COUNT : nat := 2.

(** The three messages carried by the errors of [validateHand]. *)
Definition WrongCardinality : string := "A valid poker hand must have exactly 5 cards.".
Definition InvalidRank : string := "Invalid rank detected.".
Definition InvalidSuit : string := "Invalid suit detected.".

(** ** Array and object primitives used by the program *)

(** [Object.keys(o)] and [Object.values(o)] of a dictionary object. *)
Definition Object_keys {K V} `{Countable K} (o : gmap K V) : list K :=
  (map_to_list o).*1.
Definition Object_values {K V} `{Countable K} (o : gmap K V) : list V :=
  (map_to_list o).*2.

(** [a.includes(x)] *)
Definition includes {A} `{EqDecision A} (a : list A) (x : A) : bool :=
  bool_decide (x ∈ a).

(** [a.slice(-n)]: the last [n] elements, the whole array when it is shorter. *)
Definition slice_last {A} (n : nat) (a : list A) : list A :=
  drop (length a - n) a.

(** [a.every((val, index) => p(val, index))], scanning from position [index]. *)
Fixpoint every_from {A} (p : A → nat → bool) (index : nat) (a : list A) : bool :=
  match a with
  | [] => true
  | val :: rest => p val index && every_from p (S index) rest
  end.
Definition every {A} (p : A → nat → bool) (a : list A) : bool := every_from p 0 a.

(** [a.sort((x, y) => x - y)] on numbers: ascending order. *)
Definition sort_ascending (a : list Z) : list Z := merge_sort Z.le a.

(** [o[k] = (o[k] || 0) + 1] *)
Definition increment {K} `{Countable K} (k : K) (o : gmap K nat) : gmap K nat :=
  <[k := default 0 (o !! k) + 1]> o.

(** ** The program *)

(** The body of the [for ... of hand] loop of [validateHand]: rank is
    checked before suit, card by card. *)
Fixpoint validateCards (hand : list Card) : outcome unit :=
  match hand with
  | [] => Return ()
  | c :: rest =>
      if negb (includes VALID_RANKS (rank c)) then Throw InvalidRank
      else if negb (includes VALID_SUITS (suit c)) then Throw InvalidSuit
      else validateCards rest
  end.

(** A [list] is always an array, so [!Array.isArray(hand)] is false and the
    first test is the one on the length. *)
Definition validateHand (hand : list Card) : outcome unit :=
  if negb (bool_decide (length hand = TOTAL_CARDS)) then Throw WrongCardinality
  else validateCards hand.

Record Counts : Type := { rankCounts : gmap Z nat; suitCounts : gmap string nat }.

Definition countRanksAndSuits (hand : list Card) : Counts :=
  foldl (λ acc c,
           {| rankCounts := increment (rank c) (rankCounts acc);
              suitCounts := increment (suit c) (suitCounts acc) |})
        {| rankCounts := ∅; suitCounts := ∅ |} hand.

(** [Math.max(...Object.values(suitCounts)) === TOTAL_CARDS]; on no
    argument [Math.max] is [-Infinity], which like [0] differs from 5. *)
Definition isFlush (suitCounts : gmap string nat) : bool :=
  bool_decide (max_list (Object_values suitCounts) = TOTAL_CARDS).

Definition isRoyal (ranks : list Z) : bool :=
  includes ranks ACE_RANK
  && every (λ val index, bool_decide (val = BROADWAY_START + Z.of_nat index)%Z)
           (slice_last ROYAL_TAIL_LENGTH ranks).

(** [ranks[i]] is [undefined] out of range; the subtraction is only
    reached, and only meaningful, when both reads succeed. *)
Definition isStraight (ranks : list Z) : bool :=
  let isBroadway := isRoyal ranks in
  (bool_decide (length ranks = TOTAL_CARDS)
   && match ranks !! (TOTAL_CARDS - 1), ranks !! 0 with
      | Some hi, Some lo => bool_decide (hi - lo = MAX_RANK_DIFF)%Z
      | _, _ => false
      end)
  || isBroadway.

(** The [for (let [conditionFunc, result] of conditions)] loop followed by
    the final [return]. *)
Fixpoint first_match (conditions : list ((unit → bool) * string))
    (otherwise : string) : string :=
  match conditions with
  | [] => otherwise
  | (conditionFunc, result) :: rest =>
      if conditionFunc () then result else first_match rest otherwise
  end.

Definition conditions (rankFrequencies : list nat) (ranks : list Z)
    (suitCounts : gmap string nat) : list ((unit → bool) * string) :=
  [ (λ _, isFlush suitCounts && isRoyal ranks, "royalflush");
    (λ _, isFlush suitCounts && isStraight ranks, "straightflush");
    (λ _, includes rankFrequencies FOUR_OF_A_KIND_COUNT, "fourofakind");
    (λ _, includes rankFrequencies THREE_OF_A_KIND_COUNT
          && includes rankFrequencies PAIR_COUNT, "fullhouse");
    (λ _, isFlush suitCounts, "flush");
    (λ _, isStraight ranks, "straight");
    (λ _, includes rankFrequencies THREE_OF_A_KIND_COUNT, "threeofakind");
    (λ _, bool_decide
            (length (filter (λ freq, freq = PAIR_COUNT) rankFrequencies)
             = TWO_PAIR_COUNT), "twopair");
    (λ _, includes rankFrequencies PAIR_COUNT, "pair") ].

(** The aggregated data the classifier works on. [Object.keys] returns the
    rank keys as strings and [.map(Number)] turns them back into the
    integers they were, so the keys are kept in [Z] throughout. *)
Definition rankFrequenciesOf (hand : list Card) : list nat :=
  Object_values (rankCounts (countRanksAndSuits hand)).
Definition ranksOf (hand : list Card) : list Z :=
  sort_ascending (Object_keys (rankCounts (countRanksAndSuits hand))).

Definition evaluatePokerHand (hand : list Card) : outcome string :=
  match validateHand hand with
  | Throw message => Throw message
  | Return _ =>
      let counts := countRanksAndSuits hand in
      let rankFrequencies := Object_values (rankCounts counts) in
      let ranks := sort_ascending (Object_keys (rankCounts counts)) in
      Return (first_match (conditions rankFrequencies ranks (suitCounts counts))
                          "highcard")
  end.

(** ** Vocabulary of the specification *)

(** A rank is valid when it is one of 1..13, a suit when it is one of the
    four recognised names. *)
Definition valid_rank (r : Z) : Prop := (1 ≤ r ≤ 13)%Z.
Definition valid_suit (s : string) : Prop :=
  s = "club" ∨ s = "spade" ∨ s = "diamond" ∨ s = "heart".
Definition valid_card (c : Card) : Prop :=
  valid_rank (rank c) ∧ valid_suit (suit c).

(** A well-formed ("valid") hand: exactly five cards, each field valid.
    Nothing is required of the hand as a whole, so a card may repeat. *)
Definition WellFormed (hand : list Card) : Prop :=
  length hand = 5 ∧ Forall valid_card hand.

(** Number of cards of [hand] whose [key] (rank or suit) is [k]. *)
Definition occurrences {K} `{EqDecision K} (key : Card → K) (k : K)
    (hand : list Card) : nat :=
  length (filter (λ c, key c = k) hand).

(** One of the two dictionaries of [countRanksAndSuits] taken alone,
    started from an arbitrary dictionary [o]. *)
Definition tally {K} `{Countable K} (key : Card → K) (hand : list Card)
    (o : gmap K nat) : gmap K nat :=
  foldl (λ acc c, increment (key c) acc) o hand.

(** The closed set of labels. *)
Definition labels : list string :=
  ["highcard"; "pair"; "twopair"; "threeofakind"; "straight"; "flush";
   "fullhouse"; "fourofakind"; "straightflush"; "royalflush"].

(** The fields of a hand in the order the validator reads them: card by
    card, and rank before suit within a card. *)
Inductive field : Type :=
| RankField (r : Z)
| SuitField (s : string).

Definition fields (hand : list Card) : list field :=
  c ← hand; [RankField (rank c); SuitField (suit c)].

Definition valid_field (f : field) : Prop :=
  match f with
  | RankField r => valid_rank r
  | SuitField s => valid_suit s
  end.

Definition error_of (f : field) : string :=
  match f with
  | RankField _ => InvalidRank
  | SuitField _ => InvalidSuit
  end.

#[global] Instance valid_rank_dec (r : Z) : Decision (valid_rank r).
Proof. unfold valid_rank. apply _. Defined.

#[global] Instance valid_suit_dec (s : string) : Decision (valid_suit s).
Proof. unfold valid_suit. apply _. Defined.

#[global] Instance valid_field_dec (f : field) : Decision (valid_field f).
Proof. destruct f; simpl; apply _. Defined.

(** First field, in reading order, that is not valid. *)
Definition first_invalid_field (hand : list Card) : option field :=
  snd <$> list_find (λ f, ¬ valid_field f) (fields hand).

(** The flush predicate on the aggregated data of a hand. *)
Definition flushOf (hand : list Card) : bool :=
  isFlush (suitCounts (countRanksAndSuits hand)).

(** "Some rank count equals [n]": a rank occurs exactly [n] times. *)
Definition some_rank_count (hand : list Card) (n : nat) : Prop :=
  ∃ r, occurrences rank r hand = n.

(** "Exactly 2 distinct ranks have count 2". *)
Definition exactly_two_pairs (hand : list Card) : Prop :=
  ∃ r1 r2, r1 ≠ r2 ∧ ∀ r, occurrences rank r hand = 2 ↔ r = r1 ∨ r = r2.

(** All the cards of the hand share one suit. *)
Definition same_suit (hand : list Card) : Prop :=
  ∃ s, ∀ c, c ∈ hand → suit c = s.

(** The set of distinct ranks of the hand is exactly the set listed in [l]. *)
Definition distinct_ranks_are (hand : list Card) (l : list Z) : Prop :=
  ∀ r, (∃ c, c ∈ hand ∧ rank c = r) ↔ r ∈ l.

(** [first_true table otherwise label]: [label] is the label of the first
    row of [table] whose predicate holds, [otherwise] when no row holds. *)
Inductive first_true : list (Prop * string) → string → string → Prop :=
| first_true_none (otherwise : string) :
    first_true [] otherwise otherwise
| first_true_here (P : Prop) (label : string) rest (otherwise : string) :
    P → first_true ((P, label) :: rest) otherwise label
| first_true_later (P : Prop) (l : string) rest (otherwise label : string) :
    ¬ P → first_true rest otherwise label →
    first_true ((P, l) :: rest) otherwise label.

(** The decision table of the classifier, in precedence order. *)
Definition precedence (hand : list Card) : list (Prop * string) :=
  let flush := flushOf hand = true in
  let royal := isRoyal (ranksOf hand) = true in
  let straight := isStraight (ranksOf hand) = true in
  [ (flush ∧ royal, "royalflush");
    (flush ∧ straight, "straightflush");
    (some_rank_count hand 4, "fourofakind");
    (some_rank_count hand 3 ∧ some_rank_count hand 2, "fullhouse");
    (flush, "flush");
    (straight, "straight");
    (some_rank_count hand 3, "threeofakind");
    (exactly_two_pairs hand, "twopair");
    (some_rank_count hand 2, "pair") ].

(** Least and greatest element of a list of ranks. *)
Definition is_minimum (lo : Z) (l : list Z) : Prop := lo ∈ l ∧ ∀ x, x ∈ l → (lo ≤ x)%Z.
Definition is_maximum (hi : Z) (l : list Z) : Prop := hi ∈ l ∧ ∀ x, x ∈ l → (x ≤ hi)%Z.

(** The ways of writing 5 as an ordered sum of positive counts: the
    possible contents of [rankFrequencies] for a hand of five cards. *)
Definition rank_patterns : list (list nat) :=
  [ [5];
    [4; 1]; [1; 4]; [3; 2]; [2; 3];
    [3; 1; 1]; [1; 3; 1]; [1; 1; 3]; [2; 2; 1]; [2; 1; 2]; [1; 2; 2];
    [2; 1; 1; 1]; [1; 2; 1; 1]; [1; 1; 2; 1]; [1; 1; 1; 2];
    [1; 1; 1; 1; 1] ].

(** ** Sample hands *)

Definition card (r : Z) (s : string) : Card := {| rank := r; suit := s |}.

Definition royal_hearts : list Card :=
  [card 1 "heart"; card 10 "heart"; card 11 "heart"; card 12 "heart";
   card 13 "heart"].
Definition spades_2_to_6 : list Card :=
  [card 2 "spade"; card 3 "spade"; card 4 "spade"; card 5 "spade";
   card 6 "spade"].
Definition mixed_2_to_6 : list Card :=
  [card 2 "heart"; card 3 "spade"; card 4 "diamond"; card 5 "club";
   card 6 "spade"].
Definition mixed_2_to_6_shuffled : list Card :=
  [card 3 "spade"; card 2 "heart"; card 4 "diamond"; card 6 "spade";
   card 5 "club"].
Definition mixed_wheel : list Card :=
  [card 1 "heart"; card 2 "spade"; card 3 "diamond"; card 4 "club";
   card 5 "spade"].
Definition five_aces_of_hearts : list Card :=
  [card 1 "heart"; card 1 "heart"; card 1 "heart"; card 1 "heart";
   card 1 "heart"].
Definition five_aces_mixed : list Card :=
  [card 1 "heart"; card 1 "spade"; card 1 "diamond"; card 1 "club";
   card 1 "heart"].
(** Second card: rank and suit both invalid; fourth card: suit invalid. *)
Definition two_bad_cards : list Card :=
  [card 2 "heart"; card 0 "clubs"; card 4 "diamond"; card 5 "club ";
   card 6 "spade"].
(** Second card: suit invalid; third card: rank invalid. *)
Definition suit_then_rank : list Card :=
  [card 2 "heart"; card 3 "spades"; card 14 "diamond"; card 5 "club";
   card 6 "spade"].
(** One defect only: a rank of 14, respectively a misspelt suit. *)
Definition rank_14_hand : list Card :=
  [card 2 "heart"; card 3 "spade"; card 14 "diamond"; card 5 "club";
   card 6 "spade"].
Definition club_typo_hand : list Card :=
  [card 2 "heart"; card 3 "spade"; card 4 "diamond"; card 5 "club ";
   card 6 "spade"].
Definition four_cards : list Card :=
  [card 2 "heart"; card 3 "spade"; card 4 "diamond"; card 5 "club"].

(** [mixed_2_to_6] with the suits of its first two cards exchanged. *)
Definition mixed_2_to_6_resuited : list Card :=
  [card 2 "spade"; card 3 "heart"; card 4 "diamond"; card 5 "club";
   card 6 "spade"].

(** [suit_then_rank] with its second and third cards exchanged. *)
Definition rank_then_suit : list Card :=
  [card 2 "heart"; card 14 "diamond"; card 3 "spades"; card 5 "club";
   card 6 "spade"].

Definition pair_hand : list Card :=
  [card 9 "heart"; card 9 "spade"; card 4 "diamond"; card 5 "club";
   card 13 "spade"].

(** Closes [WellFormed] goals on explicit hands. *)
Ltac well_formed :=
  split;
  [ reflexivity
  | repeat constructor;
    solve [ unfold valid_rank; simpl; lia | unfold valid_suit; simpl; auto 6 ] ].

(** ** Scenarios of the specification *)

Example scenario_royalflush :
  evaluatePokerHand royal_hearts = Return "royalflush".
Proof. vm_compute. reflexivity. Qed.

Example scenario_straightflush :
  evaluatePokerHand spades_2_to_6 = Return "straightflush".
Proof. vm_compute. reflexivity. Qed.

Example scenario_fourofakind :
  evaluatePokerHand [card 7 "club"; card 7 "spade"; card 7 "diamond";
                     card 7 "heart"; card 2 "club"] = Return "fourofakind".
Proof. vm_compute. reflexivity. Qed.

Example scenario_fullhouse :
  evaluatePokerHand [card 5 "club"; card 5 "spade"; card 5 "diamond";
                     card 9 "heart"; card 9 "club"] = Return "fullhouse".
Proof. vm_compute. reflexivity. Qed.

Example scenario_straight :
  evaluatePokerHand mixed_2_to_6 = Return "straight".
Proof. vm_compute. reflexivity. Qed.

Example scenario_highcard :
  evaluatePokerHand [card 2 "heart"; card 5 "spade"; card 9 "diamond";
                     card 11 "club"; card 13 "heart"] = Return "highcard".
Proof. vm_compute. reflexivity. Qed.

Example scenario_twopair :
  evaluatePokerHand [card 4 "club"; card 4 "spade"; card 9 "diamond";
                     card 9 "heart"; card 2 "club"] = Return "twopair".
Proof. vm_compute. reflexivity. Qed.

Example boundary_four_cards :
  evaluatePokerHand four_cards = Throw WrongCardinality.
Proof. vm_compute. reflexivity. Qed.

Example boundary_rank_14 :
  evaluatePokerHand rank_14_hand = Throw InvalidRank.
Proof. vm_compute. reflexivity. Qed.

Example boundary_club_typo :
  evaluatePokerHand club_typo_hand = Throw InvalidSuit.
Proof. vm_compute. reflexivity. Qed.

(** ** Primitives *)

Lemma includes_true {A} `{EqDecision A} (a : list A) (x : A) :
  includes a x = true ↔ x ∈ a.
Proof. unfold includes. by rewrite bool_decide_eq_true. Qed.

Lemma includes_false {A} `{EqDecision A} (a : list A) (x : A) :
  includes a x = false ↔ x ∉ a.
Proof. unfold includes. by rewrite bool_decide_eq_false. Qed.

Lemma VALID_RANKS_spec (r : Z) : r ∈ VALID_RANKS ↔ valid_rank r.
Proof.
  unfold VALID_RANKS, valid_rank. rewrite list_elem_of_fmap. split.
  - intros (i & -> & Hi). apply elem_of_seqZ in Hi. lia.
  - intros Hr. exists (r - 1)%Z. split; [lia |]. apply elem_of_seqZ. lia.
Qed.

Lemma VALID_SUITS_spec (s : string) : s ∈ VALID_SUITS ↔ valid_suit s.
Proof.
  unfold VALID_SUITS, valid_suit. rewrite !elem_of_cons, elem_of_nil. tauto.
Qed.

(** ** Aggregation: what the dictionaries contain *)

Section tally.
Context {K : Type} `{Countable K} (key : Card → K).

Lemma occurrences_cons (k : K) (c : Card) (hand : list Card) :
  occurrences key k (c :: hand)
  = if decide (key c = k) then S (occurrences key k hand)
    else occurrences key k hand.
Proof.
  unfold occurrences. rewrite filter_cons. by destruct (decide (key c = k)).
Qed.

Lemma occurrences_le (k : K) (hand : list Card) :
  occurrences key k hand ≤ length hand.
Proof. apply length_filter. Qed.

Lemma occurrences_pos (k : K) (hand : list Card) :
  0 < occurrences key k hand ↔ ∃ c, c ∈ hand ∧ key c = k.
Proof.
  unfold occurrences. split.
  - intros Hpos. destruct (filter _ hand) as [| c l] eqn:E; [simpl in Hpos; lia |].
    assert (Hc : c ∈ filter (λ c, key c = k) hand) by (rewrite E; left).
    apply list_elem_of_filter in Hc. exists c. tauto.
  - intros (c & Hc & Hk).
    assert (Hin : c ∈ filter (λ c, key c = k) hand)
      by (apply list_elem_of_filter; done).
    destruct (filter _ hand); [by apply elem_of_nil in Hin | simpl; lia].
Qed.

Lemma occurrences_all (k : K) (hand : list Card) :
  occurrences key k hand = length hand ↔ ∀ c, c ∈ hand → key c = k.
Proof.
  induction hand as [| c hand IH].
  - split; [intros _ c Hc; by apply elem_of_nil in Hc | done].
  - rewrite occurrences_cons. pose proof (occurrences_le k hand) as Hle.
    simpl. destruct (decide (key c = k)) as [Hk | Hk]; split.
    + intros Hlen c' Hc'. apply elem_of_cons in Hc' as [-> | Hc']; [done |].
      apply IH; [lia | done].
    + intros Hall. f_equal. apply IH. intros c' Hc'. apply Hall. by right.
    + lia.
    + intros Hall. destruct Hk. apply Hall. left.
Qed.

Lemma occurrences_Permutation (k : K) (hand hand' : list Card) :
  hand ≡ₚ hand' → occurrences key k hand = occurrences key k hand'.
Proof. intros Hp. unfold occurrences. by rewrite Hp. Qed.

Lemma tally_lookup (hand : list Card) (o : gmap K nat) (k : K) :
  tally key hand o !! k
  = if decide (occurrences key k hand = 0) then o !! k
    else Some (default 0 (o !! k) + occurrences key k hand).
Proof.
  revert o. induction hand as [| c hand IH]; intros o; [done |].
  unfold tally in *. simpl. rewrite IH, occurrences_cons. unfold increment.
  destruct (decide (key c = k)) as [-> | Hne].
  - rewrite lookup_insert_eq. simpl.
    destruct (decide (occurrences key k hand = 0)) as [E | E]; f_equal; lia.
  - by rewrite lookup_insert_ne.
Qed.

Lemma tally_empty_lookup (hand : list Card) (k : K) (n : nat) :
  tally key hand ∅ !! k = Some n ↔ n = occurrences key k hand ∧ 0 < n.
Proof.
  rewrite tally_lookup, lookup_empty. simpl.
  destruct (decide (occurrences key k hand = 0)) as [E | E].
  - split; [done | lia].
  - split; [intros [= <-]; lia | intros [-> _]; done].
Qed.

Lemma tally_Permutation (hand hand' : list Card) (o : gmap K nat) :
  hand ≡ₚ hand' → tally key hand o = tally key hand' o.
Proof.
  intros Hp. apply map_eq. intros k.
  by rewrite !tally_lookup, (occurrences_Permutation k _ _ Hp).
Qed.

Lemma sum_values_increment (k : K) (o : gmap K nat) :
  sum_list (Object_values (increment k o)) = S (sum_list (Object_values o)).
Proof.
  unfold increment, Object_values. destruct (o !! k) as [v |] eqn:E; simpl.
  - rewrite <- insert_delete_eq.
    rewrite map_to_list_insert by apply lookup_delete_eq.
    rewrite <- (map_to_list_delete o k v E). simpl. lia.
  - rewrite map_to_list_insert by done. done.
Qed.

Lemma sum_values_tally (hand : list Card) (o : gmap K nat) :
  sum_list (Object_values (tally key hand o))
  = sum_list (Object_values o) + length hand.
Proof.
  revert o. induction hand as [| c hand IH]; intros o; simpl; [lia |].
  unfold tally in *. simpl. rewrite IH, sum_values_increment. lia.
Qed.

Lemma tally_all_same (k : K) (hand : list Card) :
  hand ≠ [] → (∀ c, c ∈ hand → key c = k) →
  tally key hand ∅ = {[ k := length hand ]}.
Proof.
  intros Hne Hall. apply map_eq. intros k'.
  rewrite tally_lookup, lookup_empty. simpl.
  destruct (decide (k' = k)) as [-> | Hk].
  - rewrite lookup_singleton_eq.
    apply occurrences_all in Hall. rewrite Hall.
    destruct hand; [done |]. by rewrite decide_False by (simpl; lia).
  - rewrite lookup_singleton_ne by done.
    rewrite decide_True; [done |].
    destruct (decide (occurrences key k' hand = 0)) as [| Hpos]; [done |].
    assert (0 < occurrences key k' hand) as Hp by lia.
    apply occurrences_pos in Hp as (c & Hc & Hkc).
    rewrite (Hall c Hc) in Hkc. congruence.
Qed.
End tally.

Lemma countRanksAndSuits_tally (hand : list Card) :
  rankCounts (countRanksAndSuits hand) = tally rank hand ∅
  ∧ suitCounts (countRanksAndSuits hand) = tally suit hand ∅.
Proof.
  unfold countRanksAndSuits, tally.
  generalize (∅ : gmap Z nat) (∅ : gmap string nat).
  induction hand as [| c hand IH]; intros ro so; [done |]. apply IH.
Qed.

Lemma rankCounts_tally (hand : list Card) :
  rankCounts (countRanksAndSuits hand) = tally rank hand ∅.
Proof. apply countRanksAndSuits_tally. Qed.

Lemma suitCounts_tally (hand : list Card) :
  suitCounts (countRanksAndSuits hand) = tally suit hand ∅.
Proof. apply countRanksAndSuits_tally. Qed.

Lemma rankCounts_lookup (hand : list Card) (r : Z) (n : nat) :
  rankCounts (countRanksAndSuits hand) !! r = Some n
  ↔ n = occurrences rank r hand ∧ 0 < n.
Proof. rewrite rankCounts_tally. apply tally_empty_lookup. Qed.

Lemma suitCounts_lookup (hand : list Card) (s : string) (n : nat) :
  suitCounts (countRanksAndSuits hand) !! s = Some n
  ↔ n = occurrences suit s hand ∧ 0 < n.
Proof. rewrite suitCounts_tally. apply tally_empty_lookup. Qed.

Lemma elem_of_Object_values {K V} `{Countable K} (o : gmap K V) (v : V) :
  v ∈ Object_values o ↔ ∃ k, o !! k = Some v.
Proof.
  unfold Object_values. rewrite list_elem_of_fmap. split.
  - intros ([k v'] & -> & Hin). exists k. by apply elem_of_map_to_list.
  - intros (k & Hk). exists (k, v). split; [done |]. by apply elem_of_map_to_list.
Qed.

Lemma elem_of_Object_keys {K V} `{Countable K} (o : gmap K V) (k : K) :
  k ∈ Object_keys o ↔ is_Some (o !! k).
Proof.
  unfold Object_keys. rewrite list_elem_of_fmap. split.
  - intros ([k' v] & -> & Hin). exists v. by apply elem_of_map_to_list.
  - intros (v & Hk). exists (k, v). split; [done |]. by apply elem_of_map_to_list.
Qed.

Lemma elem_of_rankFrequenciesOf (hand : list Card) (n : nat) :
  n ∈ rankFrequenciesOf hand ↔ 0 < n ∧ ∃ r, occurrences rank r hand = n.
Proof.
  unfold rankFrequenciesOf. rewrite elem_of_Object_values. split.
  - intros (r & Hr). apply rankCounts_lookup in Hr as [-> Hpos]. eauto.
  - intros (Hpos & r & <-). exists r. by apply rankCounts_lookup.
Qed.

(** ** The sorted list of distinct ranks *)

Lemma ranksOf_Permutation_keys (hand : list Card) :
  ranksOf hand ≡ₚ Object_keys (rankCounts (countRanksAndSuits hand)).
Proof. apply merge_sort_Permutation. Qed.

Lemma elem_of_ranksOf (hand : list Card) (r : Z) :
  r ∈ ranksOf hand ↔ ∃ c, c ∈ hand ∧ rank c = r.
Proof.
  rewrite ranksOf_Permutation_keys, elem_of_Object_keys.
  rewrite <- (occurrences_pos rank). split.
  - intros (n & Hn). apply rankCounts_lookup in Hn. lia.
  - intros Hpos. eexists. by apply rankCounts_lookup.
Qed.

Lemma NoDup_ranksOf (hand : list Card) : NoDup (ranksOf hand).
Proof. rewrite ranksOf_Permutation_keys. apply NoDup_fst_map_to_list. Qed.

Lemma Sorted_ranksOf (hand : list Card) : Sorted Z.le (ranksOf hand).
Proof. apply (Sorted_merge_sort Z.le). Qed.

Lemma StronglySorted_ranksOf (hand : list Card) :
  StronglySorted Z.le (ranksOf hand).
Proof. apply (StronglySorted_merge_sort Z.le). Qed.

(** The distinct-rank list is determined by the set of ranks in the hand. *)
Lemma ranksOf_unique (hand : list Card) (l : list Z) :
  Sorted Z.le l → NoDup l → (∀ r, r ∈ l ↔ ∃ c, c ∈ hand ∧ rank c = r) →
  ranksOf hand = l.
Proof.
  intros Hsorted Hnodup Hl.
  apply (Sorted_unique Z.le); [apply Sorted_ranksOf | done |].
  apply NoDup_Permutation; [apply NoDup_ranksOf | done |].
  intros r. by rewrite elem_of_ranksOf, Hl.
Qed.

Lemma length_keys_values {K V} `{Countable K} (o : gmap K V) :
  length (Object_keys o) = length (Object_values o).
Proof. unfold Object_keys, Object_values. by rewrite !length_fmap. Qed.

Lemma length_le_sum_list (l : list nat) :
  Forall (λ n, 0 < n) l → length l ≤ sum_list l.
Proof. induction 1 as [| n l Hn _ IH]; simpl; lia. Qed.

Lemma sum_rankFrequenciesOf (hand : list Card) :
  sum_list (rankFrequenciesOf hand) = length hand.
Proof.
  unfold rankFrequenciesOf. rewrite rankCounts_tally, sum_values_tally.
  unfold Object_values. by rewrite map_to_list_empty.
Qed.

Lemma length_ranksOf (hand : list Card) : length (ranksOf hand) ≤ length hand.
Proof.
  rewrite ranksOf_Permutation_keys, length_keys_values.
  rewrite <- sum_rankFrequenciesOf. apply length_le_sum_list.
  apply Forall_forall. intros n Hn. apply elem_of_rankFrequenciesOf in Hn. tauto.
Qed.

(** ** Validation *)

Lemma validateCards_cons (c : Card) (hand : list Card) :
  validateCards (c :: hand)
  = if decide (valid_rank (rank c))
    then if decide (valid_suit (suit c)) then validateCards hand
         else Throw InvalidSuit
    else Throw InvalidRank.
Proof.
  simpl. unfold includes.
  destruct (decide (valid_rank (rank c))) as [Hr | Hr].
  - rewrite (bool_decide_eq_true_2 _ (proj2 (VALID_RANKS_spec _) Hr)). simpl.
    destruct (decide (valid_suit (suit c))) as [Hs | Hs].
    + by rewrite (bool_decide_eq_true_2 _ (proj2 (VALID_SUITS_spec _) Hs)).
    + rewrite bool_decide_eq_false_2; [done |]. by rewrite VALID_SUITS_spec.
  - rewrite bool_decide_eq_false_2; [done |]. by rewrite VALID_RANKS_spec.
Qed.

Lemma validateCards_Return (hand : list Card) :
  validateCards hand = Return () ↔ Forall valid_card hand.
Proof.
  induction hand as [| c hand IH]; [by split; [constructor |] |].
  rewrite validateCards_cons, Forall_cons. unfold valid_card.
  repeat case_decide; split; try done; try tauto.
Qed.

(** The card at which the loop stops decides the message. *)
Lemma validateCards_first_bad (pre post : list Card) (c : Card) :
  Forall valid_card pre → ¬ valid_card c →
  validateCards (pre ++ c :: post)
  = Throw (if decide (valid_rank (rank c)) then InvalidSuit else InvalidRank).
Proof.
  intros Hpre Hc. induction Hpre as [| c' pre [Hr Hs] _ IH]; simpl app.
  - rewrite validateCards_cons. unfold valid_card in Hc.
    repeat case_decide; try done; tauto.
  - rewrite validateCards_cons, !decide_True by done. apply IH.
Qed.

Lemma validateCards_Throw (hand : list Card) (message : string) :
  validateCards hand = Throw message →
  ∃ pre c post, hand = pre ++ c :: post ∧ Forall valid_card pre ∧
    ((¬ valid_rank (rank c) ∧ message = InvalidRank)
     ∨ (valid_rank (rank c) ∧ ¬ valid_suit (suit c) ∧ message = InvalidSuit)).
Proof.
  induction hand as [| c hand IH]; [done |]. rewrite validateCards_cons.
  destruct (decide (valid_rank (rank c))) as [Hr | Hr].
  - destruct (decide (valid_suit (suit c))) as [Hs | Hs].
    + intros Hm. destruct (IH Hm) as (pre & c' & post & -> & Hpre & Hc').
      exists (c :: pre), c', post. split; [done |]. split; [| done].
      by constructor.
    + intros [= <-]. exists [], c, hand. split; [done |]. split; [constructor |].
      by right.
  - intros [= <-]. exists [], c, hand. split; [done |]. split; [constructor |].
    by left.
Qed.

Lemma validateHand_length (hand : list Card) :
  validateHand hand
  = if decide (length hand = 5) then validateCards hand
    else Throw WrongCardinality.
Proof.
  unfold validateHand, TOTAL_CARDS. case_decide.
  - by rewrite bool_decide_eq_true_2.
  - by rewrite bool_decide_eq_false_2.
Qed.

Lemma validateHand_Return (hand : list Card) :
  validateHand hand = Return () ↔ WellFormed hand.
Proof.
  rewrite validateHand_length. unfold WellFormed. case_decide.
  - rewrite validateCards_Return. tauto.
  - split; [done | tauto].
Qed.

Lemma messages_distinct :
  WrongCardinality ≠ InvalidRank ∧ WrongCardinality ≠ InvalidSuit
  ∧ InvalidRank ≠ InvalidSuit.
Proof. repeat split; discriminate. Qed.

Lemma evaluatePokerHand_Throw (hand : list Card) (message : string) :
  evaluatePokerHand hand = Throw message ↔ validateHand hand = Throw message.
Proof.
  unfold evaluatePokerHand. destruct (validateHand hand); split; congruence.
Qed.

Lemma evaluatePokerHand_WellFormed (hand : list Card) :
  WellFormed hand →
  evaluatePokerHand hand
  = Return (first_match (conditions (rankFrequenciesOf hand) (ranksOf hand)
                           (suitCounts (countRanksAndSuits hand)))
              "highcard").
Proof.
  intros Hwf. apply validateHand_Return in Hwf.
  unfold evaluatePokerHand. by rewrite Hwf.
Qed.

Lemma first_match_labels (cs : list ((unit → bool) * string)) (d : string) :
  d ∈ labels → Forall (λ c, c.2 ∈ labels) cs → first_match cs d ∈ labels.
Proof.
  intros Hd. induction 1 as [| [f l] cs Hl _ IH]; simpl; [done |].
  by destruct (f ()).
Qed.

Lemma evaluatePokerHand_label (hand : list Card) :
  WellFormed hand →
  ∃ label, evaluatePokerHand hand = Return label ∧ label ∈ labels.
Proof.
  intros Hwf. rewrite (evaluatePokerHand_WellFormed _ Hwf).
  eexists. split; [done |]. apply first_match_labels.
  - unfold labels. set_solver.
  - unfold conditions, labels. repeat constructor; simpl; set_solver.
Qed.

(** ** The flush detector *)

Lemma max_list_pos_elem_of (l : list nat) (n : nat) :
  max_list l = n → 0 < n → n ∈ l.
Proof.
  intros <- Hpos. apply max_list_elem_of. intros E. rewrite E in Hpos.
  simpl in Hpos. lia.
Qed.

Lemma flushOf_same_suit (hand : list Card) :
  length hand = 5 → flushOf hand = true ↔ same_suit hand.
Proof.
  intros Hlen. unfold flushOf, isFlush, same_suit, TOTAL_CARDS.
  rewrite bool_decide_eq_true. split.
  - intros Hmax. apply max_list_pos_elem_of in Hmax; [| lia].
    apply elem_of_Object_values in Hmax as (s & Hs).
    apply suitCounts_lookup in Hs as [Hs _]. exists s.
    apply occurrences_all. lia.
  - intros (s & Hs). rewrite suitCounts_tally.
    rewrite (tally_all_same suit s) by (done || by intros ->).
    unfold Object_values. by rewrite map_to_list_singleton, Hlen.
Qed.

(** ** The royal and straight detectors *)

Lemma isRoyal_spec (l : list Z) :
  length l ≤ 5 → isRoyal l = true ↔ l = [1; 10; 11; 12; 13]%Z.
Proof.
  intros Hlen. split; [| by intros ->].
  unfold isRoyal, includes, every, slice_last, ACE_RANK, BROADWAY_START,
    ROYAL_TAIL_LENGTH.
  destruct l as [| a [| b [| c [| d [| e [| f l]]]]]]; simpl in Hlen; try lia;
    simpl;
    rewrite ?andb_true_iff, ?bool_decide_eq_true,
      ?elem_of_cons, ?elem_of_nil; intros Hr;
    try (exfalso; lia).
  repeat f_equal; lia.
Qed.

(** ** The classifier *)

Lemma first_true_functional table otherwise (l1 l2 : string) :
  first_true table otherwise l1 → first_true table otherwise l2 → l1 = l2.
Proof.
  induction 1 as [| | P l rest otherwise label HnP _ IH];
    inversion 1; subst; try done. by apply IH.
Qed.

(** The loop over [conditions] computes [first_true] of any table whose
    rows say the same as the condition functions. *)
Lemma first_match_first_true cs table (otherwise : string) :
  Forall2 (λ c row, (c.1 () = true ↔ row.1) ∧ c.2 = row.2) cs table →
  first_true table otherwise (first_match cs otherwise).
Proof.
  induction 1 as [| [f l] [P l'] cs table [Hf Hl] _ IH]; simpl in *.
  - constructor.
  - subst l'. destruct (f ()) eqn:E.
    + apply first_true_here. by apply Hf.
    + apply first_true_later; [| done]. intros HP. apply Hf in HP. congruence.
Qed.

Lemma includes_rankFrequencies (hand : list Card) (n : nat) :
  0 < n → includes (rankFrequenciesOf hand) n = true ↔ some_rank_count hand n.
Proof.
  intros Hpos. rewrite includes_true, elem_of_rankFrequenciesOf.
  unfold some_rank_count. tauto.
Qed.

Lemma length_filter_fst_snd {K V} (P : V → Prop) (Q : K → Prop)
    `{∀ v, Decision (P v)} `{∀ k, Decision (Q k)} (l : list (K * V)) :
  Forall (λ kv, P kv.2 ↔ Q kv.1) l →
  length (filter P l.*2) = length (filter Q l.*1).
Proof.
  induction 1 as [| [k v] l HPQ _ IH]; [done |].
  rewrite !fmap_cons, !filter_cons. simpl in HPQ. simpl fst. simpl snd.
  destruct (decide (P v)), (decide (Q k)); try tauto;
    rewrite ?length_cons; by rewrite IH.
Qed.

Lemma NoDup_length_2 {A} (l : list A) :
  NoDup l →
  length l = 2 ↔ ∃ x y, x ≠ y ∧ ∀ z, z ∈ l ↔ z = x ∨ z = y.
Proof.
  intros Hnd. split.
  - destruct l as [| x [| y [| ? ?]]]; try done. intros _.
    exists x, y. apply NoDup_cons in Hnd as [Hx _]. split.
    + intros ->. apply Hx. left.
    + intros z. rewrite !elem_of_cons, elem_of_nil. tauto.
  - intros (x & y & Hxy & Hl).
    assert (Hp : l ≡ₚ [x; y]).
    { apply NoDup_Permutation; [done | |].
      - apply NoDup_cons. split; [| apply NoDup_singleton].
        rewrite elem_of_cons, elem_of_nil. tauto.
      - intros z. rewrite Hl, !elem_of_cons, elem_of_nil. tauto. }
    by rewrite Hp.
Qed.

Lemma twopair_condition (hand : list Card) :
  length (filter (λ freq, freq = PAIR_COUNT) (rankFrequenciesOf hand))
  = TWO_PAIR_COUNT
  ↔ exactly_two_pairs hand.
Proof.
  unfold rankFrequenciesOf, Object_values, PAIR_COUNT, TWO_PAIR_COUNT.
  set (o := rankCounts (countRanksAndSuits hand)).
  rewrite (length_filter_fst_snd _ (λ r, occurrences rank r hand = 2)).
  - rewrite NoDup_length_2 by apply NoDup_filter, NoDup_fst_map_to_list.
    unfold exactly_two_pairs.
    assert (Hin : ∀ r, r ∈ filter (λ r, occurrences rank r hand = 2)
                         (map_to_list o).*1
                       ↔ occurrences rank r hand = 2).
    { intros r. rewrite list_elem_of_filter.
      change ((map_to_list o).*1) with (Object_keys o).
      rewrite elem_of_Object_keys. split; [tauto |]. intros Hr.
      split; [done |]. exists 2. apply rankCounts_lookup. lia. }
    split; intros (x & y & Hxy & Hl); exists x, y; (split; [done |]);
      intros r; by rewrite <- Hl, Hin.
  - apply Forall_forall. intros [r n] Hrn. simpl.
    apply elem_of_map_to_list, rankCounts_lookup in Hrn as [-> _]. done.
Qed.

Lemma conditions_precedence (hand : list Card) :
  Forall2 (λ c row, (c.1 () = true ↔ row.1) ∧ c.2 = row.2)
    (conditions (rankFrequenciesOf hand) (ranksOf hand)
       (suitCounts (countRanksAndSuits hand)))
    (precedence hand).
Proof.
  unfold conditions, precedence, flushOf,
    FOUR_OF_A_KIND_COUNT, THREE_OF_A_KIND_COUNT.
  repeat (constructor; [split; [simpl | reflexivity] |]); [.. | constructor];
    rewrite ?andb_true_iff, ?bool_decide_eq_true, ?twopair_condition,
      ?includes_rankFrequencies by (unfold PAIR_COUNT; lia);
    reflexivity.
Qed.

(** ** Properties of the classifier *)

(** C1. For every valid five-card hand, [evaluatePokerHand] returns the
    label of the first predicate that is true, in the order: flush and
    royal, flush and straight, some rank count 4, some rank count 3 and
    some rank count 2, flush, straight, some rank count 3, exactly two
    distinct ranks of count 2, some rank count 2; and ["highcard"] when
    none is true. *)
Theorem evaluatePokerHand_precedence (hand : list Card) :
  WellFormed hand →
  ∃ label, evaluatePokerHand hand = Return label
           ∧ first_true (precedence hand) "highcard" label
           ∧ ∀ label', first_true (precedence hand) "highcard" label' →
                       label' = label.
Proof.
  intros Hwf. rewrite (evaluatePokerHand_WellFormed _ Hwf).
  eexists. split; [reflexivity |].
  assert (Hft : first_true (precedence hand) "highcard"
                  (first_match
                     (conditions (rankFrequenciesOf hand) (ranksOf hand)
                        (suitCounts (countRanksAndSuits hand))) "highcard"))
    by apply first_match_first_true, conditions_precedence.
  split; [exact Hft |].
  intros label' Hft'. eapply first_true_functional; eassumption.
Qed.

Lemma evaluatePokerHand_precedence_witness :
  WellFormed mixed_2_to_6
  ∧ ∃ label, evaluatePokerHand mixed_2_to_6 = Return label
             ∧ first_true (precedence mixed_2_to_6) "highcard" label
             ∧ ∀ label', first_true (precedence mixed_2_to_6) "highcard" label'
                         → label' = label.
Proof.
  assert (Hwf : WellFormed mixed_2_to_6) by well_formed.
  split; [exact Hwf | apply (evaluatePokerHand_precedence mixed_2_to_6 Hwf)].
Defined.

(** C3. For every valid hand, the straight predicate holds of the sorted
    distinct-rank list if and only if either the list has exactly five
    elements and its maximum minus its minimum is 4, or the royal
    predicate holds of it. *)
Theorem isStraight_iff (hand : list Card) :
  WellFormed hand →
  isStraight (ranksOf hand) = true
  ↔ (length (ranksOf hand) = 5
     ∧ ∃ lo hi, is_minimum lo (ranksOf hand) ∧ is_maximum hi (ranksOf hand)
                ∧ (hi - lo = 4)%Z)
    ∨ isRoyal (ranksOf hand) = true.
Proof.
  intros _. pose proof (StronglySorted_ranksOf hand) as Hsorted.
  generalize dependent (ranksOf hand). intros l Hsorted.
  unfold isStraight, TOTAL_CARDS, MAX_RANK_DIFF.
  rewrite orb_true_iff, andb_true_iff, bool_decide_eq_true.
  apply or_iff_compat_r.
  cut (length l = 5 →
       match l !! (5 - 1), l !! 0 with
       | Some hi, Some lo => bool_decide (hi - lo = 4)%Z
       | _, _ => false
       end = true
       ↔ ∃ lo hi, is_minimum lo l ∧ is_maximum hi l ∧ (hi - lo = 4)%Z).
  { intros Hcore. split; intros [Hlen Hrest]; (split; [done |]);
      by apply (Hcore Hlen). }
  intros Hlen.
  destruct l as [| a [| b [| c [| d [| e [| f l]]]]]]; simpl in Hlen; try lia.
  simpl. rewrite bool_decide_eq_true.
  repeat match goal with
         | H : StronglySorted _ (_ :: _) |- _ =>
             apply StronglySorted_cons in H as [? H]
         | H : Forall _ (_ :: _) |- _ => apply Forall_cons in H as [? H]
         end.
  unfold is_minimum, is_maximum. split.
  - intros Hd. exists a, e. split; [| split; [| done]].
    + split; [left |]. intros x. rewrite !elem_of_cons, elem_of_nil. lia.
    + split; [do 4 right; left |]. intros x. rewrite !elem_of_cons, elem_of_nil. lia.
  - intros (lo & hi & [Hlo Hmin] & [Hhi Hmax] & Hd).
    pose proof (Hmin a ltac:(left)). pose proof (Hmax e ltac:(do 4 right; left)).
    rewrite !elem_of_cons, elem_of_nil in Hlo, Hhi. lia.
Qed.

Lemma isStraight_iff_witness :
  WellFormed mixed_2_to_6
  ∧ (isStraight (ranksOf mixed_2_to_6) = true
     ↔ (length (ranksOf mixed_2_to_6) = 5
        ∧ ∃ lo hi, is_minimum lo (ranksOf mixed_2_to_6)
                   ∧ is_maximum hi (ranksOf mixed_2_to_6) ∧ (hi - lo = 4)%Z)
       ∨ isRoyal (ranksOf mixed_2_to_6) = true).
Proof.
  assert (Hwf : WellFormed mixed_2_to_6) by well_formed.
  split; [exact Hwf | apply (isStraight_iff mixed_2_to_6 Hwf)].
Defined.

Lemma ranksOf_distinct_ranks_are (hand : list Card) (l : list Z) :
  Sorted Z.le l → NoDup l → distinct_ranks_are hand l → ranksOf hand = l.
Proof.
  intros Hs Hn Hl. apply ranksOf_unique; [done | done |].
  intros r. by rewrite (Hl r).
Qed.

Lemma distinct_ranks_are_ranksOf (hand : list Card) :
  distinct_ranks_are hand (ranksOf hand).
Proof. intros r. by rewrite elem_of_ranksOf. Qed.

Lemma Sorted_NoDup_explicit (l : list Z) :
  StronglySorted Z.lt l → Sorted Z.le l ∧ NoDup l.
Proof.
  induction 1 as [| x l _ [IHs IHn] Hx]; [split; constructor |]. split.
  - apply Sorted_cons; [done |]. destruct l; constructor.
    apply Forall_cons in Hx as [Hx _]. lia.
  - apply NoDup_cons. split; [| done]. intros Hin.
    rewrite Forall_forall in Hx. specialize (Hx x Hin). lia.
Qed.

Lemma isRoyal_slice (l : list Z) :
  length l ≤ 5 →
  isRoyal l = true
  ↔ (1 ∈ l)%Z ∧ slice_last 4 l = [10; 11; 12; 13]%Z.
Proof.
  intros Hlen. rewrite (isRoyal_spec l Hlen). split.
  - intros ->. split; [left | done].
  - unfold slice_last.
    destruct l as [| a [| b [| c [| d [| e [| f l]]]]]]; simpl in Hlen; try lia;
      simpl; intros [Hin Hsl]; try discriminate Hsl.
    + injection Hsl as -> -> -> ->.
      rewrite !elem_of_cons, elem_of_nil in Hin. lia.
    + injection Hsl as -> -> -> ->.
      rewrite !elem_of_cons, elem_of_nil in Hin. f_equal. lia.
Qed.

(** C4. For every valid hand, the royal predicate (the Ace is in the sorted
    distinct-rank list and the last four elements of that list are 10, 11,
    12, 13 in order) holds if and only if the set of distinct ranks is
    exactly {1, 10, 11, 12, 13}; when it holds, the distinct-rank list has
    exactly five elements. *)
Theorem isRoyal_iff (hand : list Card) :
  WellFormed hand →
  (isRoyal (ranksOf hand) = true
   ↔ (1 ∈ ranksOf hand)%Z ∧ slice_last 4 (ranksOf hand) = [10; 11; 12; 13]%Z)
  ∧ (isRoyal (ranksOf hand) = true
     ↔ distinct_ranks_are hand [1; 10; 11; 12; 13]%Z)
  ∧ (isRoyal (ranksOf hand) = true → length (ranksOf hand) = 5).
Proof.
  intros [Hlen _].
  assert (Hle : length (ranksOf hand) ≤ 5)
    by (rewrite <- Hlen; apply length_ranksOf).
  split; [by apply isRoyal_slice |].
  rewrite (isRoyal_spec _ Hle). split; [split |].
  - intros E. rewrite <- E. apply distinct_ranks_are_ranksOf.
  - apply ranksOf_distinct_ranks_are; apply Sorted_NoDup_explicit;
      repeat (constructor; [repeat constructor |]); constructor.
  - by intros ->.
Qed.

Lemma isRoyal_iff_witness :
  WellFormed royal_hearts
  ∧ (isRoyal (ranksOf royal_hearts) = true
     ↔ (1 ∈ ranksOf royal_hearts)%Z
       ∧ slice_last 4 (ranksOf royal_hearts) = [10; 11; 12; 13]%Z)
  ∧ (isRoyal (ranksOf royal_hearts) = true
     ↔ distinct_ranks_are royal_hearts [1; 10; 11; 12; 13]%Z)
  ∧ (isRoyal (ranksOf royal_hearts) = true → length (ranksOf royal_hearts) = 5).
Proof.
  assert (Hwf : WellFormed royal_hearts) by well_formed.
  split; [exact Hwf | apply (isRoyal_iff royal_hearts Hwf)].
Defined.

(** A row whose predicate holds shields every row below it. *)
Lemma first_true_not_lower pre (P : Prop) (l : string) post
    (otherwise label : string) :
  first_true (pre ++ (P, l) :: post) otherwise label → P →
  label ∈ pre.*2 ++ [l].
Proof.
  intros Hft HP. induction pre as [| [Q m] pre IH]; simpl in *.
  - inversion Hft; subst; [left | done].
  - inversion Hft; subst; [left | right; by apply IH].
Qed.

(** C6. For every valid hand on which both the flush predicate and the
    straight predicate hold, [evaluatePokerHand] returns ["straightflush"]
    or ["royalflush"], and so never the plain ["flush"] label. More
    generally, when the predicate of a row of the table holds, the label
    returned is the label of that row or of a row above it. *)
Theorem flush_straight_precedence (hand : list Card) :
  WellFormed hand →
  (flushOf hand = true → isStraight (ranksOf hand) = true →
   (evaluatePokerHand hand = Return "straightflush"
    ∨ evaluatePokerHand hand = Return "royalflush")
   ∧ evaluatePokerHand hand ≠ Return "flush")
  ∧ (∀ pre (P : Prop) l post label,
       precedence hand = pre ++ (P, l) :: post → P →
       evaluatePokerHand hand = Return label → label ∈ pre.*2 ++ [l]).
Proof.
  intros Hwf. rewrite (evaluatePokerHand_WellFormed _ Hwf). split.
  - intros Hflush Hstraight.
    unfold flushOf in Hflush. unfold conditions. simpl.
    rewrite Hflush, Hstraight. simpl.
    destruct (isRoyal (ranksOf hand)); split; auto; discriminate.
  - intros pre P l post label Htable HP Hret.
    pose proof (first_match_first_true _ _ "highcard"
                  (conditions_precedence hand)) as Hft.
    rewrite Htable in Hft.
    apply (first_true_not_lower pre P l post "highcard"); [| done].
    congruence.
Qed.

Lemma flush_straight_precedence_witness :
  (evaluatePokerHand spades_2_to_6 = Return "straightflush"
   ∨ evaluatePokerHand spades_2_to_6 = Return "royalflush")
  ∧ evaluatePokerHand spades_2_to_6 ≠ Return "flush".
Proof.
  apply (flush_straight_precedence spades_2_to_6).
  - well_formed.
  - vm_compute. reflexivity.
  - vm_compute. reflexivity.
Defined.

(** ** Order of the cards *)

Lemma countRanksAndSuits_eq (hand : list Card) :
  countRanksAndSuits hand
  = {| rankCounts := tally rank hand ∅; suitCounts := tally suit hand ∅ |}.
Proof.
  destruct (countRanksAndSuits_tally hand) as [Hr Hs].
  destruct (countRanksAndSuits hand) as [ro so]. simpl in *. by subst.
Qed.

Lemma countRanksAndSuits_Permutation (hand hand' : list Card) :
  hand ≡ₚ hand' → countRanksAndSuits hand = countRanksAndSuits hand'.
Proof.
  intros Hp. rewrite !countRanksAndSuits_eq.
  by rewrite (tally_Permutation rank _ _ _ Hp), (tally_Permutation suit _ _ _ Hp).
Qed.

Lemma WellFormed_Permutation (hand hand' : list Card) :
  hand ≡ₚ hand' → WellFormed hand → WellFormed hand'.
Proof. intros Hp [Hlen Hall]. split; by rewrite <- Hp. Qed.

(** C7. For every valid hand and every permutation of its five cards,
    [evaluatePokerHand] returns on the permuted hand the label it returns
    on the original one: the label depends only on the multiset of cards.
    (Evaluating the same hand again gives the same label, the embedding
    being a function.) *)
Theorem evaluatePokerHand_Permutation (hand hand' : list Card) :
  WellFormed hand → hand ≡ₚ hand' →
  ∃ label, evaluatePokerHand hand = Return label
           ∧ evaluatePokerHand hand' = Return label.
Proof.
  intros Hwf Hp. pose proof (WellFormed_Permutation _ _ Hp Hwf) as Hwf'.
  rewrite (evaluatePokerHand_WellFormed _ Hwf),
    (evaluatePokerHand_WellFormed _ Hwf').
  unfold rankFrequenciesOf, ranksOf.
  rewrite (countRanksAndSuits_Permutation _ _ Hp). eauto.
Qed.

Lemma evaluatePokerHand_Permutation_witness :
  ∃ label, evaluatePokerHand mixed_2_to_6 = Return label
           ∧ evaluatePokerHand mixed_2_to_6_shuffled = Return label.
Proof.
  apply (evaluatePokerHand_Permutation mixed_2_to_6 mixed_2_to_6_shuffled).
  - well_formed.
  - unfold mixed_2_to_6, mixed_2_to_6_shuffled.
    eapply perm_trans; [apply perm_swap |]. do 3 apply perm_skip.
    apply perm_swap.
Defined.

(** ** Hands of five cards of one rank *)

Lemma single_rank_aggregates (hand : list Card) (r : Z) :
  length hand = 5 → (∀ c, c ∈ hand → rank c = r) →
  rankFrequenciesOf hand = [5] ∧ ranksOf hand = [r].
Proof.
  intros Hlen Hall. unfold rankFrequenciesOf, ranksOf.
  rewrite rankCounts_tally, (tally_all_same rank r) by (done || by intros ->).
  unfold Object_values, Object_keys.
  by rewrite map_to_list_singleton, Hlen.
Qed.

Lemma isRoyal_singleton (r : Z) : isRoyal [r] = false.
Proof.
  destruct (isRoyal [r]) eqn:E; [| done].
  apply isRoyal_spec in E; [discriminate | simpl; lia].
Qed.

Lemma isStraight_singleton (r : Z) : isStraight [r] = false.
Proof. unfold isStraight. by rewrite isRoyal_singleton. Qed.

(** C9. For every valid hand in which one rank occurs five times,
    [evaluatePokerHand] never returns ["fourofakind"]: it returns ["flush"]
    when the five cards share one suit and ["highcard"] otherwise. *)
Theorem five_of_one_rank (hand : list Card) (r : Z) :
  WellFormed hand → occurrences rank r hand = 5 →
  evaluatePokerHand hand ≠ Return "fourofakind"
  ∧ (same_suit hand → evaluatePokerHand hand = Return "flush")
  ∧ (¬ same_suit hand → evaluatePokerHand hand = Return "highcard").
Proof.
  intros Hwf Hocc. pose proof Hwf as [Hlen _].
  assert (Hall : ∀ c, c ∈ hand → rank c = r)
    by (apply occurrences_all; lia).
  destruct (single_rank_aggregates hand r Hlen Hall) as [Hfreq Hranks].
  rewrite (evaluatePokerHand_WellFormed _ Hwf), Hfreq, Hranks.
  rewrite <- (flushOf_same_suit hand Hlen).
  unfold conditions, flushOf. simpl.
  rewrite isRoyal_singleton, isStraight_singleton, !andb_false_r.
  destruct (isFlush _); simpl; repeat split; intros; congruence.
Qed.

Lemma five_of_one_rank_witness :
  evaluatePokerHand five_aces_mixed ≠ Return "fourofakind"
  ∧ (same_suit five_aces_mixed
     → evaluatePokerHand five_aces_mixed = Return "flush")
  ∧ (¬ same_suit five_aces_mixed
     → evaluatePokerHand five_aces_mixed = Return "highcard").
Proof.
  apply (five_of_one_rank five_aces_mixed 1).
  - well_formed.
  - vm_compute. reflexivity.
Defined.

Example five_aces_of_hearts_flush :
  evaluatePokerHand five_aces_of_hearts = Return "flush".
Proof. vm_compute. reflexivity. Qed.

Example five_aces_mixed_highcard :
  evaluatePokerHand five_aces_mixed = Return "highcard".
Proof. vm_compute. reflexivity. Qed.

(** ** The wheel *)

Lemma all_ones (l : list nat) :
  Forall (λ n, 0 < n) l → sum_list l = length l → Forall (λ n, n = 1) l.
Proof.
  induction 1 as [| n l Hn Hl IH]; [constructor |]. simpl. intros Hsum.
  pose proof (length_le_sum_list l Hl).
  constructor; [lia | apply IH; lia].
Qed.

(** Five distinct ranks in five cards: every rank occurs once. *)
Lemma rankFrequenciesOf_distinct (hand : list Card) (n : nat) :
  length (ranksOf hand) = length hand → n ∈ rankFrequenciesOf hand → n = 1.
Proof.
  intros Hlen. revert n. apply Forall_forall, all_ones.
  - apply Forall_forall. intros n Hn. apply elem_of_rankFrequenciesOf in Hn. tauto.
  - rewrite sum_rankFrequenciesOf, <- Hlen, ranksOf_Permutation_keys.
    apply length_keys_values.
Qed.

Lemma includes_rankFrequenciesOf_distinct (hand : list Card) (n : nat) :
  length (ranksOf hand) = length hand → n ≠ 1 →
  includes (rankFrequenciesOf hand) n = false.
Proof.
  intros Hlen Hn. apply includes_false. intros Hin.
  by apply Hn, (rankFrequenciesOf_distinct hand).
Qed.

(** C2, as the program behaves. For every valid hand whose distinct ranks
    are exactly {1, 2, 3, 4, 5} (the wheel A-2-3-4-5), the straight
    predicate is true: the hand is detected as a straight, and
    [evaluatePokerHand] returns ["straight"] when the suits are mixed and
    ["straightflush"] when the five cards share one suit. *)
Theorem wheel_is_straight (hand : list Card) :
  WellFormed hand → distinct_ranks_are hand [1; 2; 3; 4; 5]%Z →
  isStraight (ranksOf hand) = true
  ∧ (¬ same_suit hand → evaluatePokerHand hand = Return "straight")
  ∧ (same_suit hand → evaluatePokerHand hand = Return "straightflush").
Proof.
  intros Hwf Hranks. pose proof Hwf as [Hlen _].
  assert (E : ranksOf hand = [1; 2; 3; 4; 5]%Z).
  { apply ranksOf_distinct_ranks_are; [| | done];
      apply Sorted_NoDup_explicit;
      repeat (constructor; [repeat constructor |]); constructor. }
  assert (Hdistinct : length (ranksOf hand) = length hand)
    by (by rewrite E, Hlen).
  rewrite (evaluatePokerHand_WellFormed _ Hwf).
  rewrite <- (flushOf_same_suit hand Hlen).
  unfold conditions, flushOf, FOUR_OF_A_KIND_COUNT, THREE_OF_A_KIND_COUNT.
  simpl.
  rewrite !(includes_rankFrequenciesOf_distinct hand) by (done || lia).
  rewrite E. split; [done |].
  change (isStraight [1; 2; 3; 4; 5]%Z) with true.
  change (isRoyal [1; 2; 3; 4; 5]%Z) with false.
  destruct (isFlush _); simpl; split; intros; congruence.
Qed.

Lemma wheel_is_straight_witness :
  isStraight (ranksOf mixed_wheel) = true
  ∧ (¬ same_suit mixed_wheel → evaluatePokerHand mixed_wheel = Return "straight")
  ∧ (same_suit mixed_wheel
     → evaluatePokerHand mixed_wheel = Return "straightflush").
Proof.
  apply (wheel_is_straight mixed_wheel).
  - well_formed.
  - intros r. unfold mixed_wheel. split.
    + intros (c & Hc & <-).
      rewrite !elem_of_cons, elem_of_nil in Hc.
      rewrite !elem_of_cons, elem_of_nil.
      destruct Hc as [-> | [-> | [-> | [-> | [-> | []]]]]]; simpl; tauto.
    + rewrite !elem_of_cons, elem_of_nil.
      intros [-> | [-> | [-> | [-> | [-> | []]]]]];
        eexists (card _ _); (split; [| reflexivity]);
        rewrite !elem_of_cons; eauto 6.
Defined.

(** C2, as stated, fails on the mixed-suit wheel: the hand is valid, its
    distinct ranks are exactly {1, 2, 3, 4, 5}, the straight predicate is
    true of it and ["straight"] is returned. *)
Lemma wheel_not_detected_counterexample :
  WellFormed mixed_wheel
  ∧ distinct_ranks_are mixed_wheel [1; 2; 3; 4; 5]%Z
  ∧ isStraight (ranksOf mixed_wheel) ≠ false
  ∧ evaluatePokerHand mixed_wheel = Return "straight".
Proof.
  split; [well_formed |]. split; [| split; by vm_compute].
  pose proof (distinct_ranks_are_ranksOf mixed_wheel) as Hr.
  by replace (ranksOf mixed_wheel) with [1; 2; 3; 4; 5]%Z in Hr
    by (by vm_compute).
Qed.

(** ** Invariants of the aggregated dictionaries *)

Lemma sum_suit_values (hand : list Card) :
  sum_list (Object_values (suitCounts (countRanksAndSuits hand))) = length hand.
Proof.
  rewrite suitCounts_tally, sum_values_tally.
  unfold Object_values. by rewrite map_to_list_empty.
Qed.

(** C8, as the program behaves. For every validated five-card hand, the
    values of [rankCounts] sum to 5, its keys are exactly the ranks that
    occur in the hand, every key is in 1..13, and every value is the number
    of occurrences of its rank, between 1 and 5; likewise the values of
    [suitCounts] sum to 5, its keys are exactly the suits that occur, and
    every key is one of the four suits. *)
Theorem countRanksAndSuits_invariants (hand : list Card) :
  WellFormed hand →
  let ro := rankCounts (countRanksAndSuits hand) in
  let so := suitCounts (countRanksAndSuits hand) in
  sum_list (Object_values ro) = 5
  ∧ (∀ r, is_Some (ro !! r) ↔ ∃ c, c ∈ hand ∧ rank c = r)
  ∧ (∀ r, is_Some (ro !! r) → valid_rank r)
  ∧ (∀ r n, ro !! r = Some n → n = occurrences rank r hand ∧ 1 ≤ n ≤ 5)
  ∧ sum_list (Object_values so) = 5
  ∧ (∀ s, is_Some (so !! s) ↔ ∃ c, c ∈ hand ∧ suit c = s)
  ∧ (∀ s, is_Some (so !! s) → valid_suit s)
  ∧ (∀ s n, so !! s = Some n → n = occurrences suit s hand ∧ 1 ≤ n ≤ 5).
Proof.
  intros [Hlen Hall] ro so. rewrite Forall_forall in Hall.
  assert (Hro : ∀ r, is_Some (ro !! r) ↔ ∃ c, c ∈ hand ∧ rank c = r).
  { intros r. rewrite <- (occurrences_pos rank). split.
    - intros [n Hn]. apply rankCounts_lookup in Hn. lia.
    - intros Hpos. eexists. by apply rankCounts_lookup. }
  assert (Hso : ∀ s, is_Some (so !! s) ↔ ∃ c, c ∈ hand ∧ suit c = s).
  { intros s. rewrite <- (occurrences_pos suit). split.
    - intros [n Hn]. apply suitCounts_lookup in Hn. lia.
    - intros Hpos. eexists. by apply suitCounts_lookup. }
  split; [rewrite <- Hlen; apply sum_rankFrequenciesOf |].
  split; [exact Hro |].
  split; [intros r (c & Hc & <-)%Hro; by apply Hall |].
  split.
  { intros r n Hn%rankCounts_lookup. destruct Hn as [-> Hpos].
    pose proof (occurrences_le rank r hand). lia. }
  split; [rewrite <- Hlen; apply sum_suit_values |].
  split; [exact Hso |].
  split; [intros s (c & Hc & <-)%Hso; by apply Hall |].
  intros s n Hn%suitCounts_lookup. destruct Hn as [-> Hpos].
  pose proof (occurrences_le suit s hand). lia.
Qed.

Lemma countRanksAndSuits_invariants_witness :
  let ro := rankCounts (countRanksAndSuits five_aces_mixed) in
  let so := suitCounts (countRanksAndSuits five_aces_mixed) in
  sum_list (Object_values ro) = 5
  ∧ (∀ r, is_Some (ro !! r) ↔ ∃ c, c ∈ five_aces_mixed ∧ rank c = r)
  ∧ (∀ r, is_Some (ro !! r) → valid_rank r)
  ∧ (∀ r n, ro !! r = Some n
            → n = occurrences rank r five_aces_mixed ∧ 1 ≤ n ≤ 5)
  ∧ sum_list (Object_values so) = 5
  ∧ (∀ s, is_Some (so !! s) ↔ ∃ c, c ∈ five_aces_mixed ∧ suit c = s)
  ∧ (∀ s, is_Some (so !! s) → valid_suit s)
  ∧ (∀ s n, so !! s = Some n
            → n = occurrences suit s five_aces_mixed ∧ 1 ≤ n ≤ 5).
Proof. apply (countRanksAndSuits_invariants five_aces_mixed). well_formed. Defined.

(** C8, as stated, fails on a valid hand of five aces: the rank 1 has
    occurrence count 5, outside the range 1 to 4. *)
Lemma rank_count_at_most_4_counterexample :
  WellFormed five_aces_mixed
  ∧ rankCounts (countRanksAndSuits five_aces_mixed) !! 1%Z = Some 5
  ∧ ¬ (∀ r n, rankCounts (countRanksAndSuits five_aces_mixed) !! r = Some n
              → 1 ≤ n ≤ 4).
Proof.
  assert (H5 : rankCounts (countRanksAndSuits five_aces_mixed) !! 1%Z = Some 5)
    by (by vm_compute).
  split; [well_formed |]. split; [exact H5 |].
  intros Hrange. specialize (Hrange _ _ H5). lia.
Qed.

(** ** Errors *)

Lemma first_bad_split (hand : list Card) :
  ¬ Forall valid_card hand →
  ∃ pre c post, hand = pre ++ c :: post ∧ Forall valid_card pre ∧ ¬ valid_card c.
Proof.
  induction hand as [| c hand IH]; [intros []; constructor |]. intros Hn.
  destruct (decide (valid_card c)) as [Hc | Hc].
  - destruct IH as (pre & c' & post & -> & Hpre & Hc').
    { intros Hall. apply Hn. by constructor. }
    exists (c :: pre), c', post. split; [done |]. split; [by constructor | done].
  - exists [], c, hand. split; [done |]. split; [constructor | done].
Qed.

(** C5, as the program behaves. [evaluatePokerHand] fails if and only if
    the hand is malformed, and the failure is the one raised by
    [validateHand], ahead of aggregation and classification. The error is a
    wrong-cardinality error exactly when the length of the hand is not 5.
    It is an invalid-rank error exactly when the hand has five cards and
    the first card with an invalid field has its rank outside 1..13; it is
    an invalid-suit error exactly when the hand has five cards and the
    first card with an invalid field has a valid rank and a suit that is
    not one of the four. So an invalid rank gives the invalid-rank error
    when ranks are the only invalid fields of the hand, and an invalid suit
    the invalid-suit error when suits are the only invalid fields. On every
    well-formed hand a label is returned. *)
Theorem evaluatePokerHand_errors (hand : list Card) :
  ((∃ message, evaluatePokerHand hand = Throw message) ↔ ¬ WellFormed hand)
  ∧ (∀ message, evaluatePokerHand hand = Throw message
                ↔ validateHand hand = Throw message)
  ∧ (evaluatePokerHand hand = Throw WrongCardinality ↔ length hand ≠ 5)
  ∧ (evaluatePokerHand hand = Throw InvalidRank
     ↔ length hand = 5
       ∧ ∃ pre c post, hand = pre ++ c :: post ∧ Forall valid_card pre
                       ∧ ¬ valid_rank (rank c))
  ∧ (evaluatePokerHand hand = Throw InvalidSuit
     ↔ length hand = 5
       ∧ ∃ pre c post, hand = pre ++ c :: post ∧ Forall valid_card pre
                       ∧ valid_rank (rank c) ∧ ¬ valid_suit (suit c))
  ∧ (length hand = 5 → (∃ c, c ∈ hand ∧ ¬ valid_rank (rank c)) →
     (∀ c, c ∈ hand → valid_suit (suit c)) →
     evaluatePokerHand hand = Throw InvalidRank)
  ∧ (length hand = 5 → (∃ c, c ∈ hand ∧ ¬ valid_suit (suit c)) →
     (∀ c, c ∈ hand → valid_rank (rank c)) →
     evaluatePokerHand hand = Throw InvalidSuit)
  ∧ (WellFormed hand →
     ∃ label, evaluatePokerHand hand = Return label ∧ label ∈ labels).
Proof.
  destruct messages_distinct as (Hcr & Hcs & Hrs).
  assert (Hone : length hand = 5 → ¬ Forall valid_card hand →
                 ∃ c, c ∈ hand ∧ ¬ valid_card c ∧
                   evaluatePokerHand hand
                   = Throw (if decide (valid_rank (rank c)) then InvalidSuit
                            else InvalidRank)).
  { intros Hlen (pre & c & post & -> & Hpre & Hc)%first_bad_split.
    exists c. split; [apply elem_of_app; right; left |]. split; [done |].
    rewrite evaluatePokerHand_Throw, validateHand_length, decide_True by done.
    by apply validateCards_first_bad. }
  split; [| split; [| split; [| split; [| split; [| split; [| split]]]]]].
  - split.
    + intros [message Hm] Hwf.
      destruct (evaluatePokerHand_label _ Hwf) as (l & Hl & _). congruence.
    + intros Hn. destruct (evaluatePokerHand hand) as [l | m] eqn:E; [| eauto].
      destruct Hn. apply validateHand_Return.
      unfold evaluatePokerHand in E.
      destruct (validateHand hand) as [[] |]; [done | discriminate E].
  - intros message. apply evaluatePokerHand_Throw.
  - rewrite evaluatePokerHand_Throw, validateHand_length. case_decide.
    + split; [| done].
      intros (pre & c & post & _ & _ & [[_ E] | (_ & _ & E)])%validateCards_Throw;
        congruence.
    + done.
  - rewrite evaluatePokerHand_Throw, validateHand_length. case_decide.
    + split.
      * intros (pre & c & post & -> & Hpre & [[Hr _] | (_ & _ & E)])%validateCards_Throw;
          [| congruence].
        split; [done |]. by exists pre, c, post.
      * intros (_ & pre & c & post & -> & Hpre & Hr).
        rewrite validateCards_first_bad; [| done | by intros [? _]].
        by rewrite decide_False.
    + split; [congruence | tauto].
  - rewrite evaluatePokerHand_Throw, validateHand_length. case_decide.
    + split.
      * intros (pre & c & post & -> & Hpre & [[_ E] | (Hr & Hs & _)])%validateCards_Throw;
          [congruence |].
        split; [done |]. by exists pre, c, post.
      * intros (_ & pre & c & post & -> & Hpre & Hr & Hs).
        rewrite validateCards_first_bad; [| done | by intros [_ ?]].
        by rewrite decide_True.
    + split; [congruence | tauto].
  - intros Hlen (c & Hc & Hr) Hsuits.
    destruct Hone as (c' & Hc' & Hbad & ->); [done | |].
    + rewrite Forall_forall. intros Hall. by destruct (Hall c Hc).
    + case_decide; [| done]. destruct Hbad. split; [done | by apply Hsuits].
  - intros Hlen (c & Hc & Hs) Hranks.
    destruct Hone as (c' & Hc' & Hbad & ->); [done | |].
    + rewrite Forall_forall. intros Hall. by destruct (Hall c Hc).
    + rewrite decide_True; [done | by apply Hranks].
  - apply evaluatePokerHand_label.
Qed.

Lemma evaluatePokerHand_errors_witness :
  evaluatePokerHand four_cards = Throw WrongCardinality
  ∧ evaluatePokerHand rank_14_hand = Throw InvalidRank
  ∧ evaluatePokerHand club_typo_hand = Throw InvalidSuit
  ∧ ∃ label, evaluatePokerHand mixed_2_to_6 = Return label ∧ label ∈ labels.
Proof.
  split; [| split; [| split]].
  - apply (evaluatePokerHand_errors four_cards). simpl. lia.
  - apply (evaluatePokerHand_errors rank_14_hand).
    + reflexivity.
    + exists (card 14 "diamond"). split; [do 2 right; left |].
      unfold valid_rank. simpl. lia.
    + intros c Hc. unfold rank_14_hand in Hc.
      rewrite !elem_of_cons, elem_of_nil in Hc.
      destruct Hc as [-> | [-> | [-> | [-> | [-> | []]]]]];
        unfold valid_suit; simpl; auto 6.
  - apply (evaluatePokerHand_errors club_typo_hand).
    + reflexivity.
    + exists (card 5 "club "). split; [do 3 right; left |].
      unfold valid_suit. simpl. intros [E | [E | [E | E]]]; discriminate E.
    + intros c Hc. unfold club_typo_hand in Hc.
      rewrite !elem_of_cons, elem_of_nil in Hc.
      destruct Hc as [-> | [-> | [-> | [-> | [-> | []]]]]];
        unfold valid_rank; simpl; lia.
  - apply (evaluatePokerHand_errors mixed_2_to_6). well_formed.
Defined.

(** C5, as stated, fails on a five-card hand whose second card has an
    invalid suit and whose third card has an invalid rank: some card's rank
    is outside 1..13, yet the error raised is the invalid-suit one. It
    fails too on a hand whose first defective card has both fields invalid:
    some card's suit is invalid, yet the error is the invalid-rank one. *)
Lemma invalid_field_error_counterexample :
  (length suit_then_rank = 5
   ∧ (∃ c, c ∈ suit_then_rank ∧ ¬ valid_rank (rank c))
   ∧ evaluatePokerHand suit_then_rank = Throw InvalidSuit
   ∧ evaluatePokerHand suit_then_rank ≠ Throw InvalidRank)
  ∧ (length two_bad_cards = 5
     ∧ (∃ c, c ∈ two_bad_cards ∧ ¬ valid_suit (suit c))
     ∧ evaluatePokerHand two_bad_cards = Throw InvalidRank
     ∧ evaluatePokerHand two_bad_cards ≠ Throw InvalidSuit).
Proof.
  split; (split; [reflexivity |]).
  - split; [| split; [by vm_compute | by vm_compute]].
    exists (card 14 "diamond"). split; [do 2 right; left |].
    unfold valid_rank. simpl. lia.
  - split; [| split; [by vm_compute | by vm_compute]].
    exists (card 0 "clubs"). split; [right; left |].
    unfold valid_suit. simpl. intros [E | [E | [E | E]]]; discriminate E.
Qed.

(** ** Which error is raised *)

Lemma first_invalid_field_cons (c : Card) (hand : list Card) :
  first_invalid_field (c :: hand)
  = if decide (valid_rank (rank c))
    then if decide (valid_suit (suit c)) then first_invalid_field hand
         else Some (SuitField (suit c))
    else Some (RankField (rank c)).
Proof.
  unfold first_invalid_field, fields. simpl.
  destruct (decide (valid_rank (rank c))) as [Hr | Hr].
  - rewrite decide_False by (intros Hn; by apply Hn). simpl.
    destruct (decide (valid_suit (suit c))) as [Hs | Hs].
    + rewrite decide_False by (intros Hn; by apply Hn).
      by destruct (list_find _ _) as [[i f] |].
    + by rewrite decide_True.
  - by rewrite decide_True.
Qed.

Lemma validateCards_first_invalid_field (hand : list Card) :
  validateCards hand
  = match first_invalid_field hand with
    | Some f => Throw (error_of f)
    | None => Return ()
    end.
Proof.
  induction hand as [| c hand IH]; [done |].
  rewrite validateCards_cons, first_invalid_field_cons.
  by repeat case_decide.
Qed.

(** C10. On a five-card hand with invalid fields, the error raised is the
    one of the first invalid field met when the cards are read in input
    order and, within a card, the rank before the suit. In particular, when
    the first card with an invalid field has both its rank and its suit
    invalid, the error is the invalid-rank one. *)
Theorem first_invalid_field_decides (hand : list Card) :
  length hand = 5 →
  (∀ f, first_invalid_field hand = Some f →
        evaluatePokerHand hand = Throw (error_of f))
  ∧ (∀ pre c post, hand = pre ++ c :: post → Forall valid_card pre →
       ¬ valid_rank (rank c) → ¬ valid_suit (suit c) →
       evaluatePokerHand hand = Throw InvalidRank).
Proof.
  intros Hlen. split.
  - intros f Hf.
    rewrite evaluatePokerHand_Throw, validateHand_length, decide_True by done.
    by rewrite validateCards_first_invalid_field, Hf.
  - intros pre c post -> Hpre Hr Hs.
    rewrite evaluatePokerHand_Throw, validateHand_length, decide_True by done.
    rewrite validateCards_first_bad; [| done | by intros [? _]].
    by rewrite decide_False.
Qed.

Lemma first_invalid_field_decides_witness :
  first_invalid_field two_bad_cards = Some (RankField 0)
  ∧ evaluatePokerHand two_bad_cards = Throw InvalidRank.
Proof.
  assert (Hf : first_invalid_field two_bad_cards = Some (RankField 0))
    by (vm_compute; reflexivity).
  split; [exact Hf |].
  apply (proj1 (first_invalid_field_decides two_bad_cards eq_refl) _ Hf).
Defined.

Example two_bad_cards_error :
  evaluatePokerHand two_bad_cards = Throw "Invalid rank detected.".
Proof. vm_compute. reflexivity. Qed.

(** ** Aggregation of an arbitrary hand

    [countRanksAndSuits] does not depend on validation: the facts below
    hold for a hand of any length and with any fields. *)

Lemma occurrences_fmap {K} `{EqDecision K} (key : Card → K) (k : K)
    (hand : list Card) :
  occurrences key k hand = length (filter (λ x, x = k) (key <$> hand)).
Proof.
  unfold occurrences. induction hand as [| c hand IH]; [done |].
  rewrite fmap_cons, !filter_cons.
  destruct (decide (key c = k)); simpl; by rewrite IH.
Qed.

Lemma tally_keys_Permutation {K} `{Countable K} (key : Card → K)
    (hand hand' : list Card) (o : gmap K nat) :
  key <$> hand ≡ₚ key <$> hand' → tally key hand o = tally key hand' o.
Proof.
  intros Hp. apply map_eq. intros k.
  assert (E : occurrences key k hand = occurrences key k hand')
    by (rewrite !occurrences_fmap; by rewrite Hp).
  by rewrite !tally_lookup, E.
Qed.



(** The aggregated data, and with it the label of a valid hand, depend only
    on the multiset of ranks and on the multiset of suits, taken
    separately: which suit goes with which rank is forgotten. *)
Theorem ranks_and_suits_separately (hand hand' : list Card) :
  rank <$> hand ≡ₚ rank <$> hand' → suit <$> hand ≡ₚ suit <$> hand' →
  countRanksAndSuits hand = countRanksAndSuits hand'
  ∧ (WellFormed hand →
     WellFormed hand' ∧ evaluatePokerHand hand = evaluatePokerHand hand').
Proof.
  intros Hr Hs.
  assert (E : countRanksAndSuits hand = countRanksAndSuits hand').
  { rewrite !countRanksAndSuits_eq.
    by rewrite (tally_keys_Permutation rank _ _ _ Hr),
      (tally_keys_Permutation suit _ _ _ Hs). }
  split; [done |]. intros Hwf.
  assert (Hwf' : WellFormed hand').
  { destruct Hwf as [Hlen Hall]. split.
    - by rewrite <- (length_fmap rank hand'), <- Hr, length_fmap.
    - rewrite Forall_forall in Hall. apply Forall_forall. intros c Hc. split.
      + assert (Hin : rank c ∈ rank <$> hand)
          by (rewrite Hr; by apply list_elem_of_fmap_2).
        apply list_elem_of_fmap in Hin as (c' & -> & Hc'). by apply Hall.
      + assert (Hin : suit c ∈ suit <$> hand)
          by (rewrite Hs; by apply list_elem_of_fmap_2).
        apply list_elem_of_fmap in Hin as (c' & -> & Hc'). by apply Hall. }
  split; [done |].
  rewrite (evaluatePokerHand_WellFormed _ Hwf),
    (evaluatePokerHand_WellFormed _ Hwf').
  unfold rankFrequenciesOf, ranksOf. by rewrite E.
Qed.

Lemma ranks_and_suits_separately_witness :
  countRanksAndSuits mixed_2_to_6 = countRanksAndSuits mixed_2_to_6_resuited
  ∧ WellFormed mixed_2_to_6_resuited
  ∧ evaluatePokerHand mixed_2_to_6 = evaluatePokerHand mixed_2_to_6_resuited.
Proof.
  destruct (ranks_and_suits_separately mixed_2_to_6 mixed_2_to_6_resuited)
    as [E Hwf].
  - reflexivity.
  - vm_compute. apply perm_swap.
  - split; [exact E | apply Hwf; well_formed].
Defined.

(** ** The flush detector on an arbitrary hand *)




(** ** The list of distinct ranks of an arbitrary hand *)

Lemma StronglySorted_lt_ranksOf (hand : list Card) :
  StronglySorted Z.lt (ranksOf hand).
Proof.
  pose proof (StronglySorted_ranksOf hand) as Hs.
  pose proof (NoDup_ranksOf hand) as Hn.
  induction Hs as [| x l Hs IH Hx]; [constructor |].
  apply NoDup_cons in Hn as [Hx' Hn]. constructor; [by apply IH |].
  rewrite Forall_forall in Hx. apply Forall_forall. intros y Hy.
  specialize (Hx y Hy). assert (x ≠ y) by (by intros ->). lia.
Qed.

(** The array [ranks] computed by [evaluatePokerHand] is strictly
    increasing and holds exactly the ranks that occur in the hand, each
    once. It is never longer than the hand, and as long as the hand exactly
    when the cards have pairwise different ranks. *)
Theorem ranksOf_distinct_sorted (hand : list Card) :
  StronglySorted Z.lt (ranksOf hand)
  ∧ (∀ r, r ∈ ranksOf hand ↔ ∃ c, c ∈ hand ∧ rank c = r)
  ∧ length (ranksOf hand) ≤ length hand
  ∧ (length (ranksOf hand) = length hand ↔ NoDup (rank <$> hand)).
Proof.
  split; [apply StronglySorted_lt_ranksOf |].
  split; [apply elem_of_ranksOf |].
  split; [apply length_ranksOf |].
  assert (Hsub : ranksOf hand ⊆+ rank <$> hand).
  { apply NoDup_submseteq; [apply NoDup_ranksOf |].
    intros r (c & Hc & <-)%elem_of_ranksOf. by apply list_elem_of_fmap_2. }
  split.
  - intros Hlen.
    assert (Hp : ranksOf hand ≡ₚ rank <$> hand).
    { apply submseteq_length_Permutation; [done |].
      rewrite length_fmap. lia. }
    rewrite <- Hp. apply NoDup_ranksOf.
  - intros Hnd.
    assert (Hp : ranksOf hand ≡ₚ rank <$> hand).
    { apply NoDup_Permutation; [apply NoDup_ranksOf | done |].
      intros r. rewrite elem_of_ranksOf, list_elem_of_fmap.
      split; intros (c & H1 & H2); exists c; by split. }
    by rewrite Hp, length_fmap.
Qed.

(** ** The royal detector on an arbitrary array *)

Lemma every_from_broadway_ge (index : nat) (l : list Z) :
  every_from (λ val index, bool_decide (val = BROADWAY_START + Z.of_nat index)%Z)
    index l = true →
  ∀ x, x ∈ l → (10 ≤ x)%Z.
Proof.
  revert index. induction l as [| y l IH]; intros index Hev x Hx.
  - by apply elem_of_nil in Hx.
  - simpl in Hev. apply andb_true_iff in Hev as [Hy Hev].
    apply bool_decide_eq_true in Hy. unfold BROADWAY_START in Hy.
    apply elem_of_cons in Hx as [-> | Hx]; [lia | by apply (IH (S index))].
Qed.

(** [isRoyal] holds of an array, sorted or not and of any length, exactly
    when the array contains 1 and ends with 10, 11, 12, 13. An array of
    fewer than five elements is never royal: [slice(-4)] then returns the
    whole array, whose elements would all have to be at least 10. *)
Theorem isRoyal_any_array (l : list Z) :
  (isRoyal l = true
   ↔ (1 ∈ l)%Z ∧ ∃ pre, l = pre ++ [10; 11; 12; 13]%Z)
  ∧ (length l < 5 → isRoyal l = false).
Proof.
  assert (Hiff : isRoyal l = true
            ↔ (1 ∈ l)%Z ∧ ∃ pre, l = pre ++ [10; 11; 12; 13]%Z).
  { unfold isRoyal, every, slice_last, ROYAL_TAIL_LENGTH, ACE_RANK.
    rewrite andb_true_iff, includes_true. split.
    - intros [Hace Hev]. split; [done |].
      destruct (decide (length l < 4)) as [Hshort | Hlong].
      + replace (length l - 4) with 0 in Hev by lia. rewrite drop_0 in Hev.
        pose proof (every_from_broadway_ge 0 l Hev _ Hace). lia.
      + exists (take (length l - 4) l).
        rewrite <- (take_drop (length l - 4) l) at 1. f_equal.
        assert (Hlen : length (drop (length l - 4) l) = 4)
          by (rewrite length_drop; lia).
        destruct (drop (length l - 4) l) as [| a [| b [| c [| d [| e t]]]]];
          try discriminate Hlen.
        simpl in Hev. unfold BROADWAY_START in Hev.
        rewrite !andb_true_iff, !bool_decide_eq_true in Hev.
        repeat f_equal; lia.
    - intros [Hace [pre ->]]. split; [done |].
      rewrite length_app. simpl length.
      replace (length pre + 4 - 4) with (length pre) by lia.
      by rewrite drop_app_length. }
  split; [exact Hiff |]. intros Hlen.
  apply not_true_is_false. intros E.
  apply Hiff in E as [Hace [pre ->]]. rewrite length_app in Hlen.
  simpl in Hlen. destruct pre; [| simpl in Hlen; lia].
  simpl in Hace. rewrite !elem_of_cons, elem_of_nil in Hace. lia.
Qed.

Lemma isRoyal_any_array_witness : isRoyal [10; 11; 12; 13]%Z = false.
Proof. apply (isRoyal_any_array [10; 11; 12; 13]%Z). simpl. lia. Defined.

(** ** Straights as runs of consecutive ranks *)

Lemma isStraight_ranksOf_run (hand : list Card) :
  length hand ≤ 5 →
  isStraight (ranksOf hand) = true
  ↔ (∃ k, ranksOf hand = [k; k + 1; k + 2; k + 3; k + 4]%Z)
    ∨ ranksOf hand = [1; 10; 11; 12; 13]%Z.
Proof.
  intros Hlen.
  assert (Hle : length (ranksOf hand) ≤ 5)
    by (pose proof (length_ranksOf hand); lia).
  pose proof (StronglySorted_lt_ranksOf hand) as Hsorted.
  generalize dependent (ranksOf hand). intros l Hle Hsorted.
  unfold isStraight, TOTAL_CARDS, MAX_RANK_DIFF.
  rewrite orb_true_iff, (isRoyal_spec l Hle), andb_true_iff, bool_decide_eq_true.
  apply or_iff_compat_r.
  destruct l as [| a [| b [| c [| d [| e [| f l]]]]]]; simpl in Hle; try lia;
    try (split; [intros [Hl _]; discriminate Hl | intros [k Hk]; discriminate Hk]).
  simpl. rewrite bool_decide_eq_true.
  repeat match goal with
         | H : StronglySorted _ (_ :: _) |- _ =>
             apply StronglySorted_cons in H as [? H]
         | H : Forall _ (_ :: _) |- _ => apply Forall_cons in H as [? H]
         end.
  split.
  - intros [_ Hd]. exists a. repeat f_equal; lia.
  - intros [k Hk]. injection Hk as -> -> -> -> ->. split; [done | lia].
Qed.

(** For a hand of at most five cards, the straight predicate holds exactly
    when the distinct ranks are five consecutive integers k, k+1, ..., k+4
    (the Ace counting as 1, so the wheel is the run from 1) or are
    1, 10, 11, 12, 13. *)
Theorem isStraight_iff_run (hand : list Card) :
  length hand ≤ 5 →
  isStraight (ranksOf hand) = true
  ↔ (∃ k, ranksOf hand = [k; k + 1; k + 2; k + 3; k + 4]%Z)
    ∨ ranksOf hand = [1; 10; 11; 12; 13]%Z.
Proof. apply isStraight_ranksOf_run. Qed.

Lemma isStraight_iff_run_witness :
  isStraight (ranksOf mixed_wheel) = true
  ↔ (∃ k, ranksOf mixed_wheel = [k; k + 1; k + 2; k + 3; k + 4]%Z)
    ∨ ranksOf mixed_wheel = [1; 10; 11; 12; 13]%Z.
Proof. apply (isStraight_iff_run mixed_wheel). simpl. lia. Defined.

Lemma length_plus_elem_le_sum (l : list nat) (x : nat) :
  Forall (λ n, 0 < n) l → x ∈ l → length l + x ≤ sum_list l + 1.
Proof.
  induction 1 as [| n l Hn Hl IH]; intros Hx; [by apply elem_of_nil in Hx |].
  simpl. apply elem_of_cons in Hx as [-> | Hx].
  - pose proof (length_le_sum_list l Hl). lia.
  - specialize (IH Hx). lia.
Qed.

Lemma length_ranksOf_occurrences (hand : list Card) (r : Z) :
  0 < occurrences rank r hand →
  length (ranksOf hand) + occurrences rank r hand ≤ length hand + 1.
Proof.
  intros Hpos.
  rewrite ranksOf_Permutation_keys, length_keys_values,
    <- (sum_rankFrequenciesOf hand).
  apply length_plus_elem_le_sum.
  - apply Forall_forall. intros n Hn. apply elem_of_rankFrequenciesOf in Hn. tauto.
  - apply elem_of_rankFrequenciesOf. eauto.
Qed.

Lemma short_ranks_not_straight (l : list Z) :
  length l < 5 → isStraight l = false ∧ isRoyal l = false.
Proof.
  intros Hlen.
  assert (Hr : isRoyal l = false).
  { destruct (isRoyal l) eqn:E; [| done].
    apply isRoyal_spec in E; [subst; simpl in Hlen |]; lia. }
  split; [| done]. unfold isStraight, TOTAL_CARDS. rewrite Hr.
  by rewrite bool_decide_eq_false_2 by lia.
Qed.

(** In a hand of at most five cards, a rank borne by two or more cards
    rules out both the straight and the royal predicate: the list of
    distinct ranks then has fewer than five elements. *)
Theorem repeated_rank_no_straight (hand : list Card) (r : Z) :
  length hand ≤ 5 → 2 ≤ occurrences rank r hand →
  length (ranksOf hand) < 5
  ∧ isStraight (ranksOf hand) = false
  ∧ isRoyal (ranksOf hand) = false.
Proof.
  intros Hlen Hocc.
  assert (Hshort : length (ranksOf hand) < 5).
  { pose proof (length_ranksOf_occurrences hand r). lia. }
  split; [done |]. by apply short_ranks_not_straight.
Qed.

Lemma repeated_rank_no_straight_witness :
  length (ranksOf five_aces_mixed) < 5
  ∧ isStraight (ranksOf five_aces_mixed) = false
  ∧ isRoyal (ranksOf five_aces_mixed) = false.
Proof.
  apply (repeated_rank_no_straight five_aces_mixed 1).
  - simpl. lia.
  - vm_compute. lia.
Defined.

(** ** Failure and the order of the cards *)

Lemma evaluatePokerHand_Return_WellFormed (hand : list Card) (label : string) :
  evaluatePokerHand hand = Return label → WellFormed hand.
Proof.
  intros E. apply validateHand_Return. unfold evaluatePokerHand in E.
  destruct (validateHand hand) as [[] |]; [done | discriminate E].
Qed.

Lemma evaluatePokerHand_throws_iff (hand : list Card) :
  (∃ message, evaluatePokerHand hand = Throw message) ↔ ¬ WellFormed hand.
Proof.
  split.
  - intros [message Hm] Hwf.
    destruct (evaluatePokerHand_label _ Hwf) as (l & Hl & _). congruence.
  - intros Hn. destruct (evaluatePokerHand hand) as [l | m] eqn:E; [| eauto].
    destruct Hn. by apply (evaluatePokerHand_Return_WellFormed _ l).
Qed.

Lemma evaluatePokerHand_WrongCardinality_iff (hand : list Card) :
  evaluatePokerHand hand = Throw WrongCardinality ↔ length hand ≠ 5.
Proof.
  destruct messages_distinct as (Hcr & Hcs & _).
  rewrite evaluatePokerHand_Throw, validateHand_length. case_decide; [| done].
  split; [| done].
  intros (pre & c & post & _ & _ & [[_ E] | (_ & _ & E)])%validateCards_Throw;
    congruence.
Qed.

(** Whether [evaluatePokerHand] fails does not depend on the order of the
    cards, for any list of cards: a reordered hand fails exactly when the
    original does, fails for its length exactly when the original does, and
    returns exactly the labels the original returns. (The message of a
    field error can change with the order, see
    [field_error_depends_on_order].) *)
Theorem failure_order_independent (hand hand' : list Card) :
  hand ≡ₚ hand' →
  ((∃ message, evaluatePokerHand hand = Throw message)
   ↔ (∃ message, evaluatePokerHand hand' = Throw message))
  ∧ (evaluatePokerHand hand = Throw WrongCardinality
     ↔ evaluatePokerHand hand' = Throw WrongCardinality)
  ∧ (∀ label, evaluatePokerHand hand = Return label
              ↔ evaluatePokerHand hand' = Return label).
Proof.
  intros Hp.
  assert (Hwf : WellFormed hand ↔ WellFormed hand').
  { split; apply WellFormed_Permutation; [done | by symmetry]. }
  assert (Hret : ∀ h h' label, h ≡ₚ h' →
            evaluatePokerHand h = Return label →
            evaluatePokerHand h' = Return label).
  { intros h h' label Hhh' E.
    pose proof (evaluatePokerHand_Return_WellFormed _ _ E) as Hh.
    pose proof (WellFormed_Permutation _ _ Hhh' Hh) as Hh'.
    rewrite (evaluatePokerHand_WellFormed _ Hh) in E.
    rewrite (evaluatePokerHand_WellFormed _ Hh').
    unfold rankFrequenciesOf, ranksOf in *.
    by rewrite <- (countRanksAndSuits_Permutation _ _ Hhh'). }
  split; [by rewrite !evaluatePokerHand_throws_iff, Hwf |].
  split; [by rewrite !evaluatePokerHand_WrongCardinality_iff, Hp |].
  intros label. split; apply Hret; [done | by symmetry].
Qed.

Lemma failure_order_independent_witness :
  (∃ message, evaluatePokerHand suit_then_rank = Throw message)
  ↔ (∃ message, evaluatePokerHand rank_then_suit = Throw message).
Proof.
  apply (failure_order_independent suit_then_rank rank_then_suit).
  unfold suit_then_rank, rank_then_suit. apply perm_skip, perm_swap.
Defined.

(** The same five cards give the invalid-suit message in one order and the
    invalid-rank message in another. *)
Example field_error_depends_on_order :
  suit_then_rank ≡ₚ rank_then_suit
  ∧ evaluatePokerHand suit_then_rank = Throw InvalidSuit
  ∧ evaluatePokerHand rank_then_suit = Throw InvalidRank.
Proof.
  split; [apply perm_skip, perm_swap |]. split; vm_compute; reflexivity.
Qed.

(** ** What each label means *)

Lemma positive_counts_sum_5 (l : list nat) :
  Forall (λ n, 0 < n) l → sum_list l = 5 → l ∈ rank_patterns.
Proof.
  intros Hpos Hsum. unfold rank_patterns.
  destruct l as [| a [| b [| c [| d [| e [| f l]]]]]];
    repeat match goal with
           | H : Forall _ (_ :: _) |- _ => apply Forall_cons in H as [? H]
           end;
    simpl in Hsum; try lia.
  - assert (a = 5) as -> by lia. repeat constructor.
  - destruct a as [| [| [| [| [| a]]]]]; try lia;
      destruct b as [| [| [| [| [| b]]]]]; try lia; repeat constructor.
  - destruct a as [| [| [| [| a]]]]; try lia;
      destruct b as [| [| [| [| b]]]]; try lia;
      destruct c as [| [| [| [| c]]]]; try lia; repeat constructor.
  - destruct a as [| [| [| a]]]; try lia;
      destruct b as [| [| [| b]]]; try lia;
      destruct c as [| [| [| c]]]; try lia;
      destruct d as [| [| [| d]]]; try lia; repeat constructor.
  - assert (a = 1 ∧ b = 1 ∧ c = 1 ∧ d = 1 ∧ e = 1) as (-> & -> & -> & -> & ->)
      by lia.
    repeat constructor.
Qed.

(** Everything the classification of a valid hand depends on. *)
Lemma classification_data (hand : list Card) :
  WellFormed hand →
  rankFrequenciesOf hand ∈ rank_patterns
  ∧ length (ranksOf hand) = length (rankFrequenciesOf hand)
  ∧ (length (rankFrequenciesOf hand) ≠ 5 →
     isStraight (ranksOf hand) = false ∧ isRoyal (ranksOf hand) = false)
  ∧ (isRoyal (ranksOf hand) = true → isStraight (ranksOf hand) = true).
Proof.
  intros [Hlen _].
  assert (Hl : length (ranksOf hand) = length (rankFrequenciesOf hand)).
  { rewrite ranksOf_Permutation_keys. apply length_keys_values. }
  split; [| split; [done | split]].
  - apply positive_counts_sum_5.
    + apply Forall_forall. intros n Hn.
      apply elem_of_rankFrequenciesOf in Hn. tauto.
    + by rewrite sum_rankFrequenciesOf.
  - intros Hne. apply short_ranks_not_straight.
    pose proof (length_ranksOf hand). lia.
  - intros Hr. unfold isStraight. rewrite Hr. apply orb_true_r.
Qed.

(** Reduces a statement about the label of a valid hand to the sixteen
    possible contents of [rankFrequencies] and the values of the flush,
    straight and royal tests, and settles each case by computation. *)
Ltac classify hand Hwf :=
  destruct (classification_data hand Hwf) as (Hpat & Hlen & Hshort & Hroyal);
  rewrite (evaluatePokerHand_WellFormed hand Hwf);
  unfold some_rank_count;
  repeat match goal with
         | |- context [∃ r, occurrences rank r hand = ?n] =>
             change (∃ r, occurrences rank r hand = n)
               with (some_rank_count hand n);
             rewrite <- (includes_rankFrequencies hand n) by lia
         end;
  rewrite <- ?twopair_condition;
  unfold conditions, flushOf, FOUR_OF_A_KIND_COUNT, THREE_OF_A_KIND_COUNT,
    PAIR_COUNT, TWO_PAIR_COUNT in *;
  rewrite ?Hlen; clear Hlen;
  remember (rankFrequenciesOf hand) as l eqn:El;
  remember (isFlush (suitCounts (countRanksAndSuits hand))) as flush eqn:Ef;
  remember (isStraight (ranksOf hand)) as straight eqn:Es;
  remember (isRoyal (ranksOf hand)) as royal eqn:Er;
  clear El Ef Es Er;
  unfold rank_patterns in Hpat;
  repeat (apply elem_of_cons in Hpat as [-> | Hpat]);
  [.. | by apply elem_of_nil in Hpat];
  destruct flush, straight, royal;
  try (destruct Hshort as [? ?]; [simpl; lia |]; discriminate);
  try (specialize (Hroyal eq_refl); discriminate);
  clear Hshort Hroyal; vm_compute; intuition congruence.

(** On a valid hand the labels that speak of repeated ranks mean what they
    say. ["fourofakind"] is returned exactly when some rank occurs four
    times and ["fullhouse"] exactly when some rank occurs three times and
    another twice: no flush or straight test can take these two away.
    ["threeofakind"], ["twopair"] and ["pair"] are returned exactly for the
    corresponding rank counts when the hand is not a flush. *)
Theorem rank_pattern_labels (hand : list Card) :
  WellFormed hand →
  (evaluatePokerHand hand = Return "fourofakind" ↔ some_rank_count hand 4)
  ∧ (evaluatePokerHand hand = Return "fullhouse"
     ↔ some_rank_count hand 3 ∧ some_rank_count hand 2)
  ∧ (evaluatePokerHand hand = Return "threeofakind"
     ↔ some_rank_count hand 3 ∧ ¬ some_rank_count hand 2
       ∧ flushOf hand = false)
  ∧ (evaluatePokerHand hand = Return "twopair"
     ↔ exactly_two_pairs hand ∧ flushOf hand = false)
  ∧ (evaluatePokerHand hand = Return "pair"
     ↔ some_rank_count hand 2 ∧ ¬ some_rank_count hand 3
       ∧ ¬ exactly_two_pairs hand ∧ flushOf hand = false).
Proof. intros Hwf. classify hand Hwf. Qed.

Lemma rank_pattern_labels_witness :
  (evaluatePokerHand pair_hand = Return "fourofakind"
   ↔ some_rank_count pair_hand 4)
  ∧ (evaluatePokerHand pair_hand = Return "fullhouse"
     ↔ some_rank_count pair_hand 3 ∧ some_rank_count pair_hand 2)
  ∧ (evaluatePokerHand pair_hand = Return "threeofakind"
     ↔ some_rank_count pair_hand 3 ∧ ¬ some_rank_count pair_hand 2
       ∧ flushOf pair_hand = false)
  ∧ (evaluatePokerHand pair_hand = Return "twopair"
     ↔ exactly_two_pairs pair_hand ∧ flushOf pair_hand = false)
  ∧ (evaluatePokerHand pair_hand = Return "pair"
     ↔ some_rank_count pair_hand 2 ∧ ¬ some_rank_count pair_hand 3
       ∧ ¬ exactly_two_pairs pair_hand ∧ flushOf pair_hand = false).
Proof. apply (rank_pattern_labels pair_hand). well_formed. Defined.

(** On a valid hand, ["straightflush"] is returned exactly when the flush
    and straight tests hold and the royal one does not; ["flush"] exactly
    when the hand is a flush, not a straight, without a rank occurring four
    times and without a rank occurring three times beside one occurring
    twice; ["straight"] exactly when the hand is a straight and not a
    flush; ["highcard"] exactly when the hand is neither a flush nor a
    straight and no rank occurs two, three or four times. *)
Theorem flush_straight_labels (hand : list Card) :
  WellFormed hand →
  (evaluatePokerHand hand = Return "straightflush"
   ↔ flushOf hand = true ∧ isStraight (ranksOf hand) = true
     ∧ isRoyal (ranksOf hand) = false)
  ∧ (evaluatePokerHand hand = Return "flush"
     ↔ flushOf hand = true ∧ isStraight (ranksOf hand) = false
       ∧ ¬ some_rank_count hand 4
       ∧ ¬ (some_rank_count hand 3 ∧ some_rank_count hand 2))
  ∧ (evaluatePokerHand hand = Return "straight"
     ↔ isStraight (ranksOf hand) = true ∧ flushOf hand = false)
  ∧ (evaluatePokerHand hand = Return "highcard"
     ↔ flushOf hand = false ∧ isStraight (ranksOf hand) = false
       ∧ ¬ some_rank_count hand 2 ∧ ¬ some_rank_count hand 3
       ∧ ¬ some_rank_count hand 4).
Proof. intros Hwf. classify hand Hwf. Qed.

Lemma flush_straight_labels_witness :
  (evaluatePokerHand five_aces_of_hearts = Return "straightflush"
   ↔ flushOf five_aces_of_hearts = true
     ∧ isStraight (ranksOf five_aces_of_hearts) = true
     ∧ isRoyal (ranksOf five_aces_of_hearts) = false)
  ∧ (evaluatePokerHand five_aces_of_hearts = Return "flush"
     ↔ flushOf five_aces_of_hearts = true
       ∧ isStraight (ranksOf five_aces_of_hearts) = false
       ∧ ¬ some_rank_count five_aces_of_hearts 4
       ∧ ¬ (some_rank_count five_aces_of_hearts 3
            ∧ some_rank_count five_aces_of_hearts 2))
  ∧ (evaluatePokerHand five_aces_of_hearts = Return "straight"
     ↔ isStraight (ranksOf five_aces_of_hearts) = true
       ∧ flushOf five_aces_of_hearts = false)
  ∧ (evaluatePokerHand five_aces_of_hearts = Return "highcard"
     ↔ flushOf five_aces_of_hearts = false
       ∧ isStraight (ranksOf five_aces_of_hearts) = false
       ∧ ¬ some_rank_count five_aces_of_hearts 2
       ∧ ¬ some_rank_count five_aces_of_hearts 3
       ∧ ¬ some_rank_count five_aces_of_hearts 4).
Proof. apply (flush_straight_labels five_aces_of_hearts). well_formed. Defined.

(** The number of distinct ranks of a valid hand and its label. Two
    distinct ranks: ["fourofakind"] or ["fullhouse"], and conversely. When
    the hand is not a flush: four distinct ranks exactly for ["pair"],
    three exactly for ["twopair"] or ["threeofakind"], and five or one
    exactly for ["straight"] or ["highcard"]. *)
Theorem label_by_distinct_ranks (hand : list Card) :
  WellFormed hand →
  (length (ranksOf hand) = 2
   ↔ evaluatePokerHand hand = Return "fourofakind"
     ∨ evaluatePokerHand hand = Return "fullhouse")
  ∧ (flushOf hand = false →
     (length (ranksOf hand) = 4 ↔ evaluatePokerHand hand = Return "pair")
     ∧ (length (ranksOf hand) = 3
        ↔ evaluatePokerHand hand = Return "twopair"
          ∨ evaluatePokerHand hand = Return "threeofakind")
     ∧ (length (ranksOf hand) = 5 ∨ length (ranksOf hand) = 1
        ↔ evaluatePokerHand hand = Return "straight"
          ∨ evaluatePokerHand hand = Return "highcard")).
Proof. intros Hwf. classify hand Hwf. Qed.

Lemma label_by_distinct_ranks_witness :
  length (ranksOf pair_hand) = 4 ↔ evaluatePokerHand pair_hand = Return "pair".
Proof.
  apply (label_by_distinct_ranks pair_hand).
  - well_formed.
  - vm_compute. reflexivity.
Defined.

(** ** Straights and flushes in terms of the cards *)

Lemma run_StronglySorted (k : Z) :
  StronglySorted Z.lt [k; k + 1; k + 2; k + 3; k + 4]%Z.
Proof. repeat constructor; lia. Qed.

Lemma ranksOf_eq_iff (hand : list Card) (l : list Z) :
  StronglySorted Z.lt l → ranksOf hand = l ↔ distinct_ranks_are hand l.
Proof.
  intros Hs. split.
  - intros <-. apply distinct_ranks_are_ranksOf.
  - by apply ranksOf_distinct_ranks_are; apply Sorted_NoDup_explicit.
Qed.

(** On a valid hand: ["royalflush"] is returned exactly when the five cards
    share one suit and their ranks are 1, 10, 11, 12, 13; ["straightflush"]
    exactly when they share one suit and their ranks are k, ..., k+4 for
    some k from 1 to 9; ["straight"] exactly when they do not share one
    suit and their ranks are such a run or 1, 10, 11, 12, 13. *)
Theorem straight_family_labels (hand : list Card) :
  WellFormed hand →
  let run k := [k; k + 1; k + 2; k + 3; k + 4]%Z in
  let is_run := ∃ k, (1 ≤ k ≤ 9)%Z ∧ distinct_ranks_are hand (run k) in
  let broadway := distinct_ranks_are hand [1; 10; 11; 12; 13]%Z in
  (evaluatePokerHand hand = Return "royalflush" ↔ same_suit hand ∧ broadway)
  ∧ (evaluatePokerHand hand = Return "straightflush"
     ↔ same_suit hand ∧ is_run)
  ∧ (evaluatePokerHand hand = Return "straight"
     ↔ ¬ same_suit hand ∧ (is_run ∨ broadway)).
Proof.
  intros Hwf run is_run broadway. pose proof Hwf as [Hfive Hall].
  rewrite Forall_forall in Hall.
  assert (Hb : (evaluatePokerHand hand = Return "royalflush"
                ↔ flushOf hand = true ∧ isRoyal (ranksOf hand) = true)
               ∧ (evaluatePokerHand hand = Return "straightflush"
                  ↔ flushOf hand = true ∧ isStraight (ranksOf hand) = true
                    ∧ isRoyal (ranksOf hand) = false)
               ∧ (evaluatePokerHand hand = Return "straight"
                  ↔ isStraight (ranksOf hand) = true ∧ flushOf hand = false))
    by classify hand Hwf.
  destruct Hb as (-> & -> & ->).
  assert (HF : same_suit hand ↔ flushOf hand = true)
    by (symmetry; by apply flushOf_same_suit).
  assert (HR : broadway ↔ isRoyal (ranksOf hand) = true).
  { unfold broadway. rewrite isRoyal_spec, ranksOf_eq_iff; [done | |].
    - repeat constructor; lia.
    - pose proof (length_ranksOf hand). lia. }
  assert (HS : is_run ↔ isStraight (ranksOf hand) = true
                        ∧ isRoyal (ranksOf hand) = false).
  { rewrite isStraight_ranksOf_run by lia. unfold is_run. split.
    - intros (k & Hk & Hrun%ranksOf_eq_iff); [| apply run_StronglySorted].
      split; [left; by exists k |].
      apply not_true_is_false. intros E.
      apply isRoyal_spec in E; [| pose proof (length_ranksOf hand); lia].
      rewrite Hrun in E. unfold run in E. injection E as ? ?. lia.
    - intros [[[k Hk] | Hroyal] Hnot].
      + exists k. split; [| by apply ranksOf_eq_iff; [apply run_StronglySorted |]].
        assert (Hlo : k ∈ ranksOf hand) by (rewrite Hk; left).
        assert (Hhi : (k + 4)%Z ∈ ranksOf hand)
          by (rewrite Hk; do 4 right; left).
        apply elem_of_ranksOf in Hlo as (c & Hc & Hlo).
        apply elem_of_ranksOf in Hhi as (c' & Hc' & Hhi).
        destruct (Hall c Hc) as [Hv _]. destruct (Hall c' Hc') as [Hv' _].
        unfold valid_rank in *. lia.
      + rewrite Hroyal in Hnot. discriminate Hnot. }
  rewrite HF, HR, HS.
  assert (Himp : isRoyal (ranksOf hand) = true
                 → isStraight (ranksOf hand) = true)
    by (intros E; unfold isStraight; rewrite E; apply orb_true_r).
  destruct (flushOf hand), (isStraight (ranksOf hand)),
    (isRoyal (ranksOf hand)); intuition congruence.
Qed.

Lemma straight_family_labels_witness :
  (evaluatePokerHand spades_2_to_6 = Return "royalflush"
   ↔ same_suit spades_2_to_6
     ∧ distinct_ranks_are spades_2_to_6 [1; 10; 11; 12; 13]%Z)
  ∧ (evaluatePokerHand spades_2_to_6 = Return "straightflush"
     ↔ same_suit spades_2_to_6
       ∧ ∃ k, (1 ≤ k ≤ 9)%Z
              ∧ distinct_ranks_are spades_2_to_6
                  [k; k + 1; k + 2; k + 3; k + 4]%Z)
  ∧ (evaluatePokerHand spades_2_to_6 = Return "straight"
     ↔ ¬ same_suit spades_2_to_6
       ∧ ((∃ k, (1 ≤ k ≤ 9)%Z
                ∧ distinct_ranks_are spades_2_to_6
                    [k; k + 1; k + 2; k + 3; k + 4]%Z)
          ∨ distinct_ranks_are spades_2_to_6 [1; 10; 11; 12; 13]%Z)).
Proof. apply (straight_family_labels spades_2_to_6). well_formed. Defined.
